(** * bazelisk.py: version resolution and binary acquisition

    A shallow embedding of [bazelisk.py].  Python strings are [string]s,
    the file system is a finite map from path names to nodes, and every
    function of the script that touches the outside world (environment
    variables, files, clock, network) is a computation in a small
    state-and-exception monad: it reads a [host] and threads a [state]. *)

From Stdlib Require Import Ascii String List ZArith QArith Qabs Lia.
From stdpp Require Import base option gmap strings list fin_maps.
From Equations Require Import Equations.

(* ===================================================================== *)
(** * Python string operations used by the script *)
(* ===================================================================== *)

Module Str.

Definition to_list (s : string) : list ascii := list_ascii_of_string s.
Definition of_list (l : list ascii) : string := string_of_list_ascii l.

Definition is_sep (c : ascii) : bool := if decide (c = "/"%char) then true else false.

(** [str.isspace] on the ASCII range: TAB..CR, FS..US and space. *)
Definition is_space (c : ascii) : bool :=
  let n := N_of_ascii c in
  ((9 <=? n) && (n <=? 13) || (28 <=? n) && (n <=? 32))%N.

Fixpoint drop_while (f : ascii → bool) (l : list ascii) : list ascii :=
  match l with
  | [] => []
  | c :: r => if f c then drop_while f r else l
  end.

(** [s.lstrip()], [s.rstrip()], [s.strip()] *)
Definition lstrip_l (f : ascii → bool) (l : list ascii) := drop_while f l.
Definition rstrip_l (f : ascii → bool) (l : list ascii) := rev (drop_while f (rev l)).
Definition strip (s : string) : string :=
  of_list (rstrip_l is_space (lstrip_l is_space (to_list s))).

(** [s.lower()] on the ASCII range; other bytes are left alone. *)
Definition lower_char (c : ascii) : ascii :=
  let n := N_of_ascii c in
  if ((65 <=? n) && (n <=? 90))%N then ascii_of_N (n + 32) else c.
Definition lower (s : string) : string := of_list (map lower_char (to_list s)).

(** [s.split('/')[-1]]: what follows the last separator, the whole
    string when there is none. *)
Fixpoint last_segment_l (acc l : list ascii) : list ascii :=
  match l with
  | [] => acc
  | c :: r => if is_sep c then last_segment_l r r else last_segment_l acc r
  end.
Definition last_segment (s : string) : string :=
  of_list (last_segment_l (to_list s) (to_list s)).

(** Text-mode [read()] translates "\r\n" and a lone "\r" into "\n". *)
Fixpoint universal_newlines_l (l : list ascii) : list ascii :=
  match l with
  | [] => []
  | c :: r =>
      if decide (c = "013"%char) then
        match r with
        | c' :: r' =>
            if decide (c' = "010"%char) then "010"%char :: universal_newlines_l r'
            else "010"%char :: universal_newlines_l r
        | [] => ["010"%char]
        end
      else c :: universal_newlines_l r
  end.
Definition universal_newlines (s : string) : string :=
  of_list (universal_newlines_l (to_list s)).

Definition contains_sep (s : string) : bool := existsb is_sep (to_list s).

End Str.

(* ===================================================================== *)
(** * [os.path] (the POSIX flavour, on path names as strings) *)
(* ===================================================================== *)

Module Path.

Import Str.

Definition starts_with_sep (l : list ascii) : bool :=
  match l with c :: _ => is_sep c | [] => false end.

Definition ends_with_sep (l : list ascii) : bool := starts_with_sep (rev l).

(** [posixpath.join(a, b)] *)
Definition join (a b : string) : string :=
  let la := to_list a in
  let lb := to_list b in
  if starts_with_sep lb then b
  else if (match la with [] => true | _ => false end) || ends_with_sep la
       then a +:+ b
       else a +:+ "/" +:+ b.

(** [posixpath.dirname(p)]:
<<
    i = p.rfind(sep) + 1
    head = p[:i]
    if head and head != sep*len(head):
        head = head.rstrip(sep)
    return head
>> *)
Definition head_l (l : list ascii) : list ascii :=
  rev (drop_while (fun c => negb (is_sep c)) (rev l)).

Definition dirname_l (l : list ascii) : list ascii :=
  let head := head_l l in
  if (match head with [] => false | _ => true end) && negb (forallb is_sep head)
  then rstrip_l is_sep head
  else head.

Definition dirname (p : string) : string := of_list (dirname_l (to_list p)).

End Path.

Example join_ex1 : Path.join "/home/u" ".bazelisk" = "/home/u/.bazelisk".
Proof. reflexivity. Qed.
Example join_ex2 : Path.join "/" "WORKSPACE" = "/WORKSPACE".
Proof. reflexivity. Qed.
Example dirname_ex1 : Path.dirname "/a/b" = "/a".
Proof. reflexivity. Qed.
Example dirname_ex2 : Path.dirname "/a" = "/".
Proof. reflexivity. Qed.
Example dirname_ex3 : Path.dirname "/" = "/".
Proof. reflexivity. Qed.
Example dirname_ex4 : Path.dirname "a" = EmptyString.
Proof. reflexivity. Qed.
Example dirname_ex5 : Path.dirname "//" = "//".
Proof. reflexivity. Qed.
Example dirname_ex6 : Path.dirname "/a//b/" = "/a//b".
Proof. reflexivity. Qed.
Example strip_ex : Str.strip ("  7.0.0" +:+ String "010" EmptyString) = "7.0.0".
Proof. reflexivity. Qed.
Example lower_ex : Str.lower "Linux" = "linux".
Proof. reflexivity. Qed.
Example last_segment_ex :
  Str.last_segment "https://github.com/bazelbuild/bazel/releases/tag/7.0.0" = "7.0.0".
Proof. reflexivity. Qed.

(* ===================================================================== *)
(** * The world the script runs in *)
(* ===================================================================== *)

(** Exceptions the script can meet.  [Exception_ msg] is the plain
    [Exception(msg)] the script raises itself; the others come from the
    interpreter and its library. *)
Inductive exn : Type :=
| FileNotFoundError
| PermissionError
| IsADirectoryError
| NotADirectoryError
| FileExistsError
| URLError
| TypeError
| ZeroDivisionError
| OSError
| Exception_ (msg : string).

Global Instance exn_eq_dec : EqDecision exn.
Proof. solve_decision. Defined.

(** A node of the file system.  Path names are absolute and looked up as
    written (no symbolic links, no dot segments): [getcwd] and the home
    directory are expected in normal form, and so is every path the
    script derives from them.  A file's data is the string of its bytes.
    The process owns its files and is not the superuser, so the owner
    bits of [mode] decide whether [open] succeeds. *)
Inductive node : Type :=
| Dir (mode : N) (mtime : Q)
| File (mode : N) (mtime : Q) (data : string).

Definition node_mode (n : node) : N :=
  match n with Dir m _ => m | File m _ _ => m end.
Definition node_mtime (n : node) : Q :=
  match n with Dir _ t => t | File _ t _ => t end.
Definition set_mode (m : N) (n : node) : node :=
  match n with Dir _ t => Dir m t | File _ t d => File m t d end.

Definition owner_readable (m : N) : bool := N.testbit m 8.   (* 0o400 *)
Definition owner_writable (m : N) : bool := N.testbit m 7.   (* 0o200 *)
Definition owner_executable (m : N) : bool := N.testbit m 6. (* 0o100 *)

(** What is left of an HTTP response body: [u.read(1024)] hands out the
    next block, the empty string at the end, or raises. *)
Inductive stream : Type :=
| Eof
| Broken (e : exn)
| Chunk (block : string) (rest : stream).

Record response : Type := {
  content_length : option Z;   (* the Content-Length header, when the response has one *)
  body : stream
}.

Inductive request : Type :=
| HEAD (url : string)
| GET (url : string).

(** What a run reads but does not change. *)
Record host : Type := {
  environ : gmap string string;              (* os.environ *)
  sys_argv : list string;                    (* sys.argv *)
  getcwd : option string;                    (* os.getcwd(); None: the directory is gone *)
  home : string;                             (* os.path.expanduser("~") *)
  umask : N;
  machine : string;                          (* platform.machine() *)
  system : string;                           (* platform.system() *)
  now : Q;                                   (* time.time(), as the rational it denotes *)
  http_head : string → exn + string;         (* the URL a HEAD request ends at *)
  http_get : string → exn + response;        (* urllib.request.urlopen(url) *)
  spawn : string → list string → exn + Z     (* subprocess.Popen(...).wait() *)
}.

(** What a run changes: the file system, and the log of the requests it
    sent over the network (most recent first). *)
Record state : Type := {
  fs : gmap string node;
  requests : list request
}.

Definition with_fs (f : gmap string node) (st : state) : state :=
  {| fs := f; requests := requests st |}.

(* ===================================================================== *)
(** * Computations: state and exceptions *)
(* ===================================================================== *)

Inductive result (A : Type) : Type :=
| Ok (a : A)
| Raise (e : exn).
Arguments Ok {A} a.
Arguments Raise {A} e.

Definition M (A : Type) : Type := host → state → result A * state.

Definition ret {A} (a : A) : M A := fun _ st => (Ok a, st).
Definition raise {A} (e : exn) : M A := fun _ st => (Raise e, st).
Definition bind {A B} (c : M A) (k : A → M B) : M B :=
  fun h st =>
    match c h st with
    | (Ok a, st') => k a h st'
    | (Raise e, st') => (Raise e, st')
    end.

(** [try: c  except e: handler] *)
Definition try_except {A} (c : M A) (e : exn) (handler : M A) : M A :=
  fun h st =>
    match c h st with
    | (Raise e', st') => if decide (e' = e) then handler h st' else (Raise e', st')
    | r => r
    end.

Notation "'let*' x ':=' c 'in' k" := (bind c (fun x => k))
  (at level 10, x name, c at level 100, k at level 200).
Notation "c ';;' k" := (bind c (fun _ => k))
  (at level 100, k at level 200, right associativity).

Definition ask {A} (f : host → A) : M A := fun h st => (Ok (f h), st).
Definition get_fs : M (gmap string node) := fun _ st => (Ok (fs st), st).

(* ===================================================================== *)
(** * A parent path is the path itself or a shorter one *)
(* ===================================================================== *)

(** The upward walks below recurse on [Path.dirname]; this is the measure
    that makes them well founded. *)

Lemma drop_while_id_or_shorter (f : ascii → bool) (l : list ascii) :
  Str.drop_while f l = l ∨ length (Str.drop_while f l) < length l.
Proof.
  induction l as [|c r IH]; simpl; [by left|].
  destruct (f c); [|by left].
  right. destruct IH as [-> | IH]; lia.
Qed.

Lemma rstrip_id_or_shorter (f : ascii → bool) (l : list ascii) :
  Str.rstrip_l f l = l ∨ length (Str.rstrip_l f l) < length l.
Proof.
  unfold Str.rstrip_l.
  destruct (drop_while_id_or_shorter f (rev l)) as [-> | H].
  - left. apply rev_involutive.
  - right. rewrite length_rev in *. exact H.
Qed.

Lemma dirname_l_id_or_shorter (l : list ascii) :
  Path.dirname_l l = l ∨ length (Path.dirname_l l) < length l.
Proof.
  unfold Path.dirname_l.
  pose proof (rstrip_id_or_shorter (fun c => negb (Str.is_sep c)) l) as Hhead.
  change (Str.rstrip_l (fun c => negb (Str.is_sep c)) l) with (Path.head_l l) in Hhead.
  pose proof (rstrip_id_or_shorter Str.is_sep (Path.head_l l)) as Hstrip.
  destruct (_ && _).
  - destruct Hstrip as [-> | Hstrip]; [exact Hhead|].
    right. destruct Hhead as [Hhead | Hhead]; [rewrite Hhead in Hstrip at 2|]; lia.
  - exact Hhead.
Qed.

Lemma string_length_of_list (l : list ascii) :
  String.length (Str.of_list l) = length l.
Proof. induction l; simpl; congruence. Qed.

Lemma string_length_to_list (s : string) :
  length (Str.to_list s) = String.length s.
Proof. induction s; simpl; congruence. Qed.

Lemma dirname_shorter (p : string) :
  Path.dirname p ≠ p → String.length (Path.dirname p) < String.length p.
Proof.
  intros Hne. unfold Path.dirname in *.
  destruct (dirname_l_id_or_shorter (Str.to_list p)) as [Heq | Hlt].
  - exfalso. apply Hne. rewrite Heq. apply string_of_list_ascii_of_string.
  - rewrite string_length_of_list, <- string_length_to_list. exact Hlt.
Qed.

(* ===================================================================== *)
(** * Operating-system calls *)
(* ===================================================================== *)

(** [os.path.exists(p)] *)
Definition exists_in (f : gmap string node) (p : string) : bool :=
  match f !! p with Some _ => true | None => false end.

Definition os_path_exists (p : string) : M bool :=
  fun _ st => (Ok (exists_in (fs st) p), st).

(** [os.getcwd()] *)
Definition os_getcwd : M string :=
  fun h st => match getcwd h with
              | Some d => (Ok d, st)
              | None => (Raise FileNotFoundError, st)
              end.

(** [os.path.getmtime(p)] *)
Definition os_path_getmtime (p : string) : M Q :=
  fun _ st => match fs st !! p with
              | Some n => (Ok (node_mtime n), st)
              | None => (Raise FileNotFoundError, st)
              end.

(** [with open(p, 'r') as f: f.read()] *)
Definition read_text (p : string) : M string :=
  fun _ st => match fs st !! p with
              | None => (Raise FileNotFoundError, st)
              | Some (Dir _ _) => (Raise IsADirectoryError, st)
              | Some (File m _ d) =>
                  if owner_readable m then (Ok (Str.universal_newlines d), st)
                  else (Raise PermissionError, st)
              end.

(** [open(p, 'w').write(data)], also in binary mode: an existing file is
    truncated and keeps its mode, a new one is created in an existing
    parent directory with mode [0o666 & ~umask]. *)
Definition write_file (p data : string) : M unit :=
  fun h st =>
    match fs st !! p with
    | Some (Dir _ _) => (Raise IsADirectoryError, st)
    | Some (File m _ _) =>
        if owner_writable m
        then (Ok tt, with_fs (<[p := File m (now h) data]> (fs st)) st)
        else (Raise PermissionError, st)
    | None =>
        match fs st !! Path.dirname p with
        | Some (Dir _ _) =>
            (Ok tt, with_fs (<[p := File (N.ldiff 438 (umask h)) (now h) data]> (fs st)) st)
        | Some (File _ _ _) => (Raise NotADirectoryError, st)
        | None => (Raise FileNotFoundError, st)
        end
    end.

(** [os.chmod(p, mode)] *)
Definition os_chmod (p : string) (mode : N) : M unit :=
  fun _ st =>
    match fs st !! p with
    | Some n => (Ok tt, with_fs (<[p := set_mode mode n]> (fs st)) st)
    | None => (Raise FileNotFoundError, st)
    end.

(** [os.mkdir(p)] as [os.makedirs(..., exist_ok=True)] uses it: an
    existing directory is accepted. *)
Definition mkdir_exist_ok (h : host) (f : gmap string node) (p : string)
  : result (gmap string node) :=
  match f !! p with
  | Some (Dir _ _) => Ok f
  | Some (File _ _ _) => Raise FileExistsError
  | None =>
      match f !! Path.dirname p with
      | Some (Dir _ _) => Ok (<[p := Dir (N.ldiff 511 (umask h)) (now h)]> f)
      | Some (File _ _ _) => Raise NotADirectoryError
      | None => Raise FileNotFoundError
      end
  end.

(** [os.makedirs(p, exist_ok=True)]: the missing ancestors first, then
    the directory itself. *)
Equations? makedirs_fs (h : host) (f : gmap string node) (p : string)
  : result (gmap string node) by wf (String.length p) lt :=
  makedirs_fs h f p with string_dec (Path.dirname p) p := {
    | left _ := mkdir_exist_ok h f p
    | right ne with (if decide (Path.dirname p = EmptyString) then true else false)
                    || exists_in f (Path.dirname p) := {
        | true := mkdir_exist_ok h f p
        | false with makedirs_fs h f (Path.dirname p) := {
            | Ok f' := mkdir_exist_ok h f' p
            | Raise e := Raise e } } }.
Proof. by apply dirname_shorter. Qed.

Definition os_makedirs (p : string) : M unit :=
  fun h st => match makedirs_fs h (fs st) p with
              | Ok f' => (Ok tt, with_fs f' st)
              | Raise e => (Raise e, st)
              end.

(** [urllib.request.urlopen(Request(url, method='HEAD')).geturl()] *)
Definition urlopen_head_geturl (url : string) : M string :=
  fun h st =>
    let st' := {| fs := fs st; requests := HEAD url :: requests st |} in
    match http_head h url with
    | inr final => (Ok final, st')
    | inl e => (Raise e, st')
    end.

(** [urllib.request.urlopen(url)] *)
Definition urlopen (url : string) : M response :=
  fun h st =>
    let st' := {| fs := fs st; requests := GET url :: requests st |} in
    match http_get h url with
    | inr r => (Ok r, st')
    | inl e => (Raise e, st')
    end.

(** [subprocess.Popen(cmd, close_fds=True).wait()] *)
Definition popen_wait (cmd : string) (args : list string) : M Z :=
  fun h st => match spawn h cmd args with
              | inr code => (Ok code, st)
              | inl e => (Raise e, st)
              end.

(* ===================================================================== *)
(** * The script *)
(* ===================================================================== *)

Definition ONE_HOUR : Q := 1 * 60 * 60.

(** [find_workspace_root(root)] for a given [root]; it only looks at the
    file system, so it is a function of it. *)
Equations? find_workspace_root_from (f : gmap string node) (root : string)
  : option string by wf (String.length root) lt :=
  find_workspace_root_from f root with exists_in f (Path.join root "WORKSPACE") := {
    | true := Some root
    | false with string_dec (Path.dirname root) root := {
        | right ne := find_workspace_root_from f (Path.dirname root)
        | left _ := None } }.
Proof. by apply dirname_shorter. Qed.

(** [find_workspace_root(root=None)] *)
Definition find_workspace_root (root : option string) : M (option string) :=
  let* root := match root with
               | None => os_getcwd
               | Some r => ret r
               end in
  let* f := get_fs in
  ret (find_workspace_root_from f root).

(** Python's truth value of [workspace_root]. *)
Definition truthy (o : option string) : bool :=
  match o with
  | None => false
  | Some s => if decide (s = EmptyString) then false else true
  end.

Definition decide_which_bazel_version_to_use : M string :=
  let* env := ask environ in
  match env !! "USE_BAZEL_VERSION" with
  | Some v => ret v
  | None =>
      let* returned :=
        try_except
          (let* workspace_root := find_workspace_root None in
           match workspace_root with
           | Some root =>
               if truthy workspace_root
               then (let* contents := read_text (Path.join root ".bazelversion") in
                     ret (Some (Str.strip contents)))
               else ret None
           | None => ret None
           end)
          FileNotFoundError
          (ret None) in
      match returned with
      | Some v => ret v
      | None => ret "latest"
      end
  end.

Definition resolve_latest_version : M string :=
  let* final := urlopen_head_geturl "https://github.com/bazelbuild/bazel/releases/latest" in
  ret (Str.last_segment final).

(** [abs(time.time() - os.path.getmtime(latest_cache)) < ONE_HOUR].  Time
    stamps are the rationals their floats denote, and their difference
    is taken exactly. *)
Definition fresh (t mtime : Q) : bool :=
  if Qlt_le_dec (Qabs (t - mtime)) ONE_HOUR then true else false.

Definition resolve_version_label_to_number (bazelisk_directory version : string)
  : M string :=
  if decide (version = "latest") then
    let latest_cache := Path.join bazelisk_directory "latest_bazel" in
    let* returned :=
      try_except
        (let* t := ask now in
         let* mtime := os_path_getmtime latest_cache in
         if fresh t mtime
         then (let* contents := read_text latest_cache in
               ret (Some (Str.strip contents)))
         else ret None)
        FileNotFoundError
        (ret None) in
    match returned with
    | Some v => ret v
    | None =>
        let* latest_version := resolve_latest_version in
        write_file latest_cache latest_version ;;
        ret latest_version
    end
  else ret version.

Definition determine_bazel_filename (version : string) : M string :=
  let* machine := ask machine in
  if decide (machine ≠ "x86_64") then
    raise (Exception_ ("Unsupported machine architecture '" +:+ machine +:+
                       "'. Bazel currently only supports x86_64."))
  else
    let* operating_system := ask (fun h => Str.lower (system h)) in
    if negb (bool_decide (operating_system ∈ ["linux"; "darwin"; "windows"])) then
      raise (Exception_ ("Unsupported operating system '" +:+ operating_system +:+
                         "'. Bazel currently only supports Linux, macOS and Windows."))
    else
      ret ("bazel-" +:+ version +:+ "-" +:+ operating_system +:+ "-" +:+ machine).

Definition len (s : string) : Z := Z.of_nat (String.length s).

(** [hash = ((60*total)//fileTotalbytes)], the one step of the progress
    display that can raise.  What the script prints, and [to_mb] which
    only serves that, are not modelled. *)
Definition progress_hash (total fileTotalbytes : Z) : result Z :=
  if decide (fileTotalbytes = 0%Z) then Raise ZeroDivisionError
  else Ok ((60 * total) `div` fileTotalbytes)%Z.

(** The [while True] loop over [u.read(1024)]. *)
Fixpoint read_blocks (u : stream) (data_blocks : list string) (total fileTotalbytes : Z)
  : result (list string) :=
  match u with
  | Broken e => Raise e
  | Eof =>
      let data_blocks := data_blocks ++ [EmptyString] in
      match progress_hash total fileTotalbytes with
      | Raise e => Raise e
      | Ok _ => Ok data_blocks
      end
  | Chunk block rest =>
      let data_blocks := data_blocks ++ [block] in
      let total := (total + len block)%Z in
      match progress_hash total fileTotalbytes with
      | Raise e => Raise e
      | Ok _ =>
          if decide (len block = 0%Z) then Ok data_blocks
          else read_blocks rest data_blocks total fileTotalbytes
      end
  end.

(** The blocks joined into one byte string. *)
Definition join_blocks (data_blocks : list string) : string :=
  fold_right String.append EmptyString data_blocks.

(** [int(meta.get("Content-Length"))] *)
Definition int_content_length (u : response) : M Z :=
  match content_length u with
  | Some n => ret n
  | None => raise TypeError
  end.

Definition download_bazel_into_directory (version directory : string) : M string :=
  let* bazel_filename := determine_bazel_filename version in
  let url := "https://releases.bazel.build/" +:+ version +:+ "/release/" +:+ bazel_filename in
  let destination_path := Path.join directory bazel_filename in
  let* present := os_path_exists destination_path in
  (if negb present then
     let* u := urlopen url in
     let* fileTotalbytes := int_content_length u in
     let* data_blocks := (fun _ st => (read_blocks (body u) [] 0 fileTotalbytes, st)) in
     let data := join_blocks data_blocks in
     write_file destination_path data
   else ret tt) ;;
  os_chmod destination_path 493 ;;
  ret destination_path.

Definition main (argv : option (list string)) : M Z :=
  let* argv := match argv with
               | None => ask sys_argv
               | Some a => ret a
               end in
  let* home := ask home in
  let bazelisk_directory := Path.join home ".bazelisk" in
  os_makedirs bazelisk_directory ;;
  let* bazel_version := decide_which_bazel_version_to_use in
  let* bazel_version := resolve_version_label_to_number bazelisk_directory bazel_version in
  let bazel_directory := Path.join bazelisk_directory "bin" in
  os_makedirs bazel_directory ;;
  let* bazel_path := download_bazel_into_directory bazel_version bazel_directory in
  popen_wait bazel_path (drop 1 argv).

(* ===================================================================== *)
(** * Specification-side notions *)
(* ===================================================================== *)

(** The node at [workspace_root/.bazelversion], when the walk from the
    working directory finds a workspace root and the pin file is there.
    (A root with the empty name counts as none, as it does for the
    script's truth test of it.) *)
Definition pin_node (h : host) (f : gmap string node) : option node :=
  match getcwd h with
  | None => None
  | Some cwd =>
      match find_workspace_root_from f cwd with
      | None => None
      | Some root => if decide (root = EmptyString) then None
                     else f !! Path.join root ".bazelversion"
      end
  end.

(** What opening a node for reading gives. *)
Definition read_node (n : node) : result string :=
  match n with
  | Dir _ _ => Raise IsADirectoryError
  | File m _ d => if owner_readable m then Ok (Str.universal_newlines d)
                  else Raise PermissionError
  end.

Definition readable (n : node) : bool :=
  match read_node n with Ok _ => true | Raise _ => false end.


(** The same, except that a pin file that is there but cannot be read
    ends the selection with the exception of the failed [open]. *)
Definition selector_outcome (h : host) (f : gmap string node) : result string :=
  match environ h !! "USE_BAZEL_VERSION" with
  | Some v => Ok v
  | None =>
      match pin_node h f with
      | Some n => match read_node n with
                  | Ok contents => Ok (Str.strip contents)
                  | Raise e => Raise e
                  end
      | None => Ok "latest"
      end
  end.


(** A host the script supports. *)
Definition supported_os (h : host) : bool :=
  bool_decide (Str.lower (system h) ∈ ["linux"; "darwin"; "windows"]).
Definition supported (h : host) : bool :=
  bool_decide (machine h = "x86_64") && supported_os h.

(** The exception [determine_bazel_filename] raises on another host. *)
Definition platform_error (h : host) : exn :=
  if decide (machine h ≠ "x86_64") then
    Exception_ ("Unsupported machine architecture '" +:+ machine h +:+
                "'. Bazel currently only supports x86_64.")
  else
    Exception_ ("Unsupported operating system '" +:+ Str.lower (system h) +:+
                "'. Bazel currently only supports Linux, macOS and Windows.").

(** Artifact naming as the specification words it. *)
Definition artifact_filename (version os arch : string) : string :=
  "bazel-" +:+ version +:+ "-" +:+ os +:+ "-" +:+ arch.
Definition distribution_host : string := "https://releases.bazel.build".
Definition artifact_url (version filename : string) : string :=
  distribution_host +:+ "/" +:+ version +:+ "/release/" +:+ filename.

(** The artifact of a version on a host, and where it is fetched from and
    stored. *)
Definition filename_on (h : host) (version : string) : string :=
  artifact_filename version (Str.lower (system h)) (machine h).
Definition url_on (h : host) (version : string) : string :=
  artifact_url version (filename_on h version).
Definition destination_on (h : host) (version directory : string) : string :=
  Path.join directory (filename_on h version).

(** What the download reads from the network: the body, or the exception
    that ends the transfer. *)
Definition fetch (h : host) (url : string) : result string :=
  match http_get h url with
  | inl e => Raise e
  | inr u =>
      match content_length u with
      | None => Raise TypeError
      | Some n =>
          match read_blocks (body u) [] 0 n with
          | Ok blocks => Ok (join_blocks blocks)
          | Raise e => Raise e
          end
      end
  end.


(** [open(p, 'w')] succeeds: [p] is a file the owner may write, or is
    absent from an existing directory; and the mode the file then has. *)
Definition writable_path (f : gmap string node) (p : string) : bool :=
  match f !! p with
  | Some (File m _ _) => owner_writable m
  | Some (Dir _ _) => false
  | None => match f !! Path.dirname p with
            | Some (Dir _ _) => true
            | _ => false
            end
  end.

(** The cache entry of the latest version is trusted at time [t]. *)
Definition within_ttl (t mtime : Q) : Prop := (Qabs (t - mtime) < 3600)%Q.


Definition is_get (r : request) : bool :=
  match r with GET _ => true | HEAD _ => false end.
Definition get_requests (st : state) : list request := List.filter is_get (requests st).

Definition log (r : request) (st : state) : state :=
  {| fs := fs st; requests := r :: requests st |}.

Definition latest_url : string := "https://github.com/bazelbuild/bazel/releases/latest".

(* ===================================================================== *)
(** * Sample worlds *)
(* ===================================================================== *)

Definition tag_url (version : string) : string :=
  "https://github.com/bazelbuild/bazel/releases/tag/" +:+ version.

(** A host whose network answers: the latest release is 9.1.0 and every
    artifact is the same ten bytes. *)
Definition sample_host (env : gmap string string) (arch sys : string) (t : Q) : host :=
  {| environ := env;
     sys_argv := ["bazelisk"; "build"];
     getcwd := Some "/w/p";
     home := "/home/u";
     umask := 18%N;
     machine := arch;
     system := sys;
     now := t;
     http_head := fun _ => inr (tag_url "9.1.0");
     http_get := fun _ => inr {| content_length := Some 10%Z;
                                 body := Chunk "0123456789" Eof |};
     spawn := fun _ _ => inr 0%Z |}.


Definition dirs (l : list string) : gmap string node :=
  list_to_map ((fun p => (p, Dir 493 0%Q)) <$> l).

(** A home directory and a project without a workspace marker. *)
Definition bare_fs : gmap string node :=
  dirs ["/"; "/home"; "/home/u"; "/w"; "/w/p"].

(** The project with a marker and a pin file in [/w]. *)
Definition pinned_fs (pin : node) : gmap string node :=
  <["/w/WORKSPACE" := File 420 0%Q EmptyString]> (<["/w/.bazelversion" := pin]> bare_fs).

(** The launcher's directories, as [main] leaves them. *)
Definition launcher_fs : gmap string node :=
  dirs ["/home/u/.bazelisk"; "/home/u/.bazelisk/bin"] ∪ bare_fs.

Definition fresh_state (f : gmap string node) : state := {| fs := f; requests := [] |}.

Definition newline : string := String "010" EmptyString.

Definition plain_host : host := sample_host ∅ "x86_64" "Linux" 0%Q.
Definition readable_pin_state : state :=
  fresh_state (pinned_fs (File 420 0%Q ("  7.0.0" +:+ newline))).
Definition locked_pin_state : state := fresh_state (pinned_fs (File 0 0%Q "7.0.0")).
Definition directory_pin_state : state := fresh_state (pinned_fs (Dir 493 0%Q)).

(** The launcher's cache directory at 10000 seconds, before and after the
    latest version was stored there. *)
Definition host_at (t : Q) : host := sample_host ∅ "x86_64" "Linux" t.
Definition cache_dir : string := "/home/u/.bazelisk".
Definition cached_state : state :=
  {| fs := <["/home/u/.bazelisk/latest_bazel" := File 420 10000%Q "9.1.0"]> launcher_fs;
     requests := [HEAD latest_url] |}.

Definition bin_dir : string := "/home/u/.bazelisk/bin".
Definition artifact_path : string := "/home/u/.bazelisk/bin/bazel-9.1.0-linux-x86_64".
Definition artifact_url_910 : string :=
  "https://releases.bazel.build/9.1.0/release/bazel-9.1.0-linux-x86_64".

(** The launcher's directories once the artifact is there. *)
Definition downloaded_state : state :=
  {| fs := <[artifact_path := File 493 0%Q "0123456789"]> launcher_fs;
     requests := [GET artifact_url_910] |}.

(** A host of another architecture, and hosts with an override. *)
Definition arm_host : host := sample_host ∅ "arm64" "Linux" 0%Q.
Definition override_host (v : string) : host :=
  sample_host {["USE_BAZEL_VERSION" := v]} "x86_64" "Linux" 0%Q.

(* ===================================================================== *)
(** * Further notions *)
(* ===================================================================== *)


(** The string is empty or all white space. *)
Definition blank (s : string) : bool := forallb Str.is_space (Str.to_list s).


Definition is_head (r : request) : bool :=
  match r with HEAD _ => true | GET _ => false end.
Definition head_requests (st : state) : list request := List.filter is_head (requests st).

(** A directory name in normal form, as far as joining a file name to it
    goes: not empty and without a trailing separator. *)
Definition plain_directory (d : string) : bool :=
  match rev (Str.to_list d) with
  | c :: _ => negb (Str.is_sep c)
  | [] => false
  end.

(** A host whose working directory is gone. *)
Definition lost_host : host :=
  {| environ := ∅;
     sys_argv := ["bazelisk"];
     getcwd := None;
     home := "/home/u";
     umask := 18%N;
     machine := "x86_64";
     system := "Linux";
     now := 0%Q;
     http_head := fun _ => inl URLError;
     http_get := fun _ => inl URLError;
     spawn := fun _ _ => inr 0%Z |}.

(** A host whose network answers with the given response, and one whose
    latest-release query ends at the given URL. *)
Definition serving_host (r : response) : host :=
  {| environ := ∅;
     sys_argv := ["bazelisk"];
     getcwd := Some "/w/p";
     home := "/home/u";
     umask := 18%N;
     machine := "x86_64";
     system := "Linux";
     now := 0%Q;
     http_head := fun _ => inl URLError;
     http_get := fun _ => inr r;
     spawn := fun _ _ => inr 0%Z |}.

Definition redirected_host (final : string) : host :=
  {| environ := ∅;
     sys_argv := ["bazelisk"];
     getcwd := Some "/w/p";
     home := "/home/u";
     umask := 18%N;
     machine := "x86_64";
     system := "Linux";
     now := 0%Q;
     http_head := fun _ => inr final;
     http_get := fun _ => inl URLError;
     spawn := fun _ _ => inr 0%Z |}.

(* ===================================================================== *)
(** * Reading files *)
(* ===================================================================== *)

Lemma read_text_node (p : string) (h : host) (st : state) :
  read_text p h st =
    (match fs st !! p with
     | None => Raise FileNotFoundError
     | Some n => read_node n
     end, st).
Proof.
  unfold read_text, read_node.
  destruct (fs st !! p) as [[m t|m t d]|]; try reflexivity.
  by destruct (owner_readable m).
Qed.

Lemma read_node_not_absent (n : node) (e : exn) :
  read_node n = Raise e → e ≠ FileNotFoundError.
Proof.
  destruct n as [m t|m t d]; simpl; [congruence|].
  destruct (owner_readable m); congruence.
Qed.

(** The selector in every world. *)
Lemma decide_which_bazel_version_to_use_outcome (h : host) (st : state) :
  decide_which_bazel_version_to_use h st = (selector_outcome h (fs st), st).
Proof.
  unfold decide_which_bazel_version_to_use, selector_outcome, pin_node,
    find_workspace_root.
  unfold bind at 1. unfold ask at 1.
  destruct (environ h !! "USE_BAZEL_VERSION") as [v|]; [reflexivity|].
  unfold bind, try_except, os_getcwd, get_fs, ret.
  destruct (getcwd h) as [cwd|]; [|by case_decide].
  destruct (find_workspace_root_from (fs st) cwd) as [root|] eqn:Hroot; [|reflexivity].
  unfold truthy. destruct (decide (root = EmptyString)) as [Hempty | Hroot']; [reflexivity|].
  rewrite read_text_node.
  destruct (fs st !! Path.join root ".bazelversion") as [n|]; [|by case_decide].
  destruct (read_node n) as [contents|e] eqn:Hread; [reflexivity|].
  apply read_node_not_absent in Hread. by case_decide.
Qed.

(* ===================================================================== *)
(** * The version selector *)
(* ===================================================================== *)




(** C7 as stated fails: a pin file that cannot be opened (here a
    directory of that name) is not skipped; the exception reaches the
    caller. *)
Lemma unreadable_pin_counterexample :
  environ plain_host !! "USE_BAZEL_VERSION" = None ∧
  pin_node plain_host (fs directory_pin_state) = Some (Dir 493 0%Q) ∧
  decide_which_bazel_version_to_use plain_host directory_pin_state
    = (Raise IsADirectoryError, directory_pin_state) ∧
  decide_which_bazel_version_to_use plain_host directory_pin_state
    ≠ (Ok "latest", directory_pin_state).
Proof. repeat split; try (vm_compute; reflexivity). vm_compute. discriminate. Qed.

(** C7 (amended): with no override set, only the absence of the pin file
    falls through to "latest"; a pin file that exists in the workspace
    root but cannot be read makes the selector raise the exception of the
    failed [open], which is never [FileNotFoundError] and so is not
    caught. *)
Theorem unreadable_pin_raises (h : host) (st : state) :
  environ h !! "USE_BAZEL_VERSION" = None →
  (pin_node h (fs st) = None →
     decide_which_bazel_version_to_use h st = (Ok "latest", st)) ∧
  (∀ n, pin_node h (fs st) = Some n → readable n = false →
     ∃ e, e ≠ FileNotFoundError ∧
          decide_which_bazel_version_to_use h st = (Raise e, st)).
Proof.
  intros Henv.
  rewrite decide_which_bazel_version_to_use_outcome.
  unfold selector_outcome, readable. rewrite Henv. split.
  - by intros ->.
  - intros n -> Hn. destruct (read_node n) as [c|e] eqn:Hread; [done|].
    exists e. split; [by eapply read_node_not_absent | done].
Qed.

Lemma unreadable_pin_raises_witness :
  environ plain_host !! "USE_BAZEL_VERSION" = None ∧
  pin_node plain_host (fs locked_pin_state) = Some (File 0 0%Q "7.0.0") ∧
  readable (File 0 0%Q "7.0.0") = false ∧
  ∃ e, e ≠ FileNotFoundError ∧
       decide_which_bazel_version_to_use plain_host locked_pin_state
         = (Raise e, locked_pin_state).
Proof.
  split; [reflexivity|]. split; [reflexivity|]. split; [reflexivity|].
  destruct (unreadable_pin_raises plain_host locked_pin_state eq_refl)
    as [_ Hraise].
  exact (Hraise (File 0 0%Q "7.0.0") eq_refl eq_refl).
Defined.

(* ===================================================================== *)
(** * The upward walk *)
(* ===================================================================== *)









(* ===================================================================== *)
(** * Resolving "latest" *)
(* ===================================================================== *)

Lemma fresh_within_ttl (t mtime : Q) : fresh t mtime = true ↔ within_ttl t mtime.
Proof.
  unfold fresh, within_ttl. change ONE_HOUR with 3600%Q.
  destruct (Qlt_le_dec _ _) as [Hlt | Hle]; split; try done.
  intros Hlt. exfalso. by eapply Qlt_not_le.
Qed.


Lemma resolve_latest_version_run (h : host) (st : state) :
  resolve_latest_version h st =
    (match http_head h latest_url with
     | inr final => Ok (Str.last_segment final)
     | inl e => Raise e
     end, log (HEAD latest_url) st).
Proof.
  unfold resolve_latest_version, bind, urlopen_head_geturl, ret, log.
  fold latest_url. by destruct (http_head h latest_url).
Qed.

(** A cache entry within its hour answers without the network. *)
Lemma resolve_hit (dir : string) (h : host) (st : state) (n : node) :
  fs st !! Path.join dir "latest_bazel" = Some n →
  within_ttl (now h) (node_mtime n) →
  resolve_version_label_to_number dir "latest" h st =
    (match read_node n with
     | Ok contents => Ok (Str.strip contents)
     | Raise e => Raise e
     end, st).
Proof.
  intros Hn Hfresh%fresh_within_ttl.
  unfold resolve_version_label_to_number. rewrite decide_True by done.
  unfold bind at 1. unfold try_except.
  unfold bind at 1. unfold ask at 1.
  unfold bind at 1. unfold os_path_getmtime at 1. rewrite Hn, Hfresh.
  unfold bind at 1. rewrite read_text_node, Hn.
  destruct (read_node n) as [c|e] eqn:Hread; [reflexivity|].
  apply read_node_not_absent in Hread. by rewrite decide_False.
Qed.

(** No entry, or one out of its hour, sends the query and stores the
    answer. *)
Lemma resolve_miss (dir : string) (h : host) (st : state) :
  (fs st !! Path.join dir "latest_bazel" = None ∨
   ∃ n, fs st !! Path.join dir "latest_bazel" = Some n ∧
        ¬ within_ttl (now h) (node_mtime n)) →
  resolve_version_label_to_number dir "latest" h st =
    match http_head h latest_url with
    | inl e => (Raise e, log (HEAD latest_url) st)
    | inr final =>
        match write_file (Path.join dir "latest_bazel") (Str.last_segment final) h
                (log (HEAD latest_url) st) with
        | (Ok _, st') => (Ok (Str.last_segment final), st')
        | (Raise e, st') => (Raise e, st')
        end
    end.
Proof.
  intros Hmiss.
  unfold resolve_version_label_to_number. rewrite decide_True by done.
  unfold bind at 1. unfold try_except.
  unfold bind at 1. unfold ask at 1.
  unfold bind at 1. unfold os_path_getmtime at 1.
  destruct Hmiss as [Hn | (n & Hn & Hstale)]; rewrite Hn.
  - unfold ret at 1. simpl. unfold bind at 1.
    rewrite resolve_latest_version_run.
    destruct (http_head h latest_url); [reflexivity|].
    unfold bind, ret. by destruct (write_file _ _ _ _) as [[]].
  - destruct (fresh (now h) (node_mtime n)) eqn:Hf.
    { by apply fresh_within_ttl in Hf. }
    unfold ret at 1. unfold bind at 1.
    rewrite resolve_latest_version_run.
    destruct (http_head h latest_url); [reflexivity|].
    unfold bind, ret. by destruct (write_file _ _ _ _) as [[]].
Qed.

Lemma write_file_requests (p data : string) (h : host) (st : state) :
  requests (write_file p data h st).2 = requests st.
Proof.
  unfold write_file.
  destruct (fs st !! p) as [[m t|m t d]|]; simpl; [done | by destruct (owner_writable m) |].
  by destruct (fs st !! Path.dirname p) as [[m t|m t d]|].
Qed.





(* ===================================================================== *)
(** * Naming the artifact *)
(* ===================================================================== *)

Lemma supported_inv (h : host) :
  supported h = true →
  machine h = "x86_64" ∧ Str.lower (system h) ∈ ["linux"; "darwin"; "windows"].
Proof.
  unfold supported, supported_os. intros [Hm Hos]%andb_prop.
  split; [by apply bool_decide_eq_true in Hm | by apply bool_decide_eq_true in Hos].
Qed.

Lemma determine_bazel_filename_supported (version : string) (h : host) (st : state) :
  supported h = true →
  determine_bazel_filename version h st = (Ok (filename_on h version), st).
Proof.
  intros [Hm Hos]%supported_inv.
  unfold determine_bazel_filename, bind, ask, ret.
  rewrite decide_False by (by intros []).
  rewrite bool_decide_eq_true_2 by done. reflexivity.
Qed.

Lemma determine_bazel_filename_unsupported (version : string) (h : host) (st : state) :
  supported h = false →
  determine_bazel_filename version h st = (Raise (platform_error h), st).
Proof.
  unfold supported, supported_os, determine_bazel_filename, platform_error, bind, ask, raise.
  intros Hno. destruct (decide (machine h ≠ "x86_64")) as [Hm | Hm]; [reflexivity|].
  rewrite bool_decide_eq_true_2 in Hno by (by destruct (decide (machine h = "x86_64"))).
  simpl in Hno. by rewrite Hno.
Qed.

(* ===================================================================== *)
(** * The download *)
(* ===================================================================== *)

Lemma code_url (version filename : string) :
  "https://releases.bazel.build/" +:+ version +:+ "/release/" +:+ filename
  = artifact_url version filename.
Proof. reflexivity. Qed.

(** The download on a supported host, step by step. *)
Lemma download_run (version directory : string) (h : host) (st : state) :
  supported h = true →
  download_bazel_into_directory version directory h st =
    match fs st !! destination_on h version directory with
    | Some n =>
        (Ok (destination_on h version directory),
         with_fs (<[destination_on h version directory := set_mode 493 n]> (fs st)) st)
    | None =>
        match fetch h (url_on h version) with
        | Raise e => (Raise e, log (GET (url_on h version)) st)
        | Ok data =>
            match write_file (destination_on h version directory) data h
                    (log (GET (url_on h version)) st) with
            | (Ok _, st1) =>
                match os_chmod (destination_on h version directory) 493 h st1 with
                | (Ok _, st2) => (Ok (destination_on h version directory), st2)
                | (Raise e, st2) => (Raise e, st2)
                end
            | (Raise e, st1) => (Raise e, st1)
            end
        end
    end.
Proof.
  intros Hsup. unfold download_bazel_into_directory.
  unfold bind at 1. rewrite determine_bazel_filename_supported by done.
  rewrite code_url. fold (url_on h version). fold (destination_on h version directory).
  set (dest := destination_on h version directory). set (url := url_on h version).
  unfold bind at 1. unfold os_path_exists at 1, exists_in.
  destruct (fs st !! dest) as [n|] eqn:Hdest; simpl.
  - unfold bind, ret, os_chmod. simpl. by rewrite Hdest.
  - unfold bind at 1. unfold bind at 1. unfold urlopen at 1, fetch, log.
    destruct (http_get h url) as [e|u]; [reflexivity|].
    unfold bind at 1. unfold int_content_length.
    destruct (content_length u) as [n|]; [|reflexivity].
    unfold ret at 1. unfold bind at 1.
    destruct (read_blocks (body u) [] 0 n) as [blocks|e]; [|reflexivity].
    destruct (write_file dest (join_blocks blocks) h _) as [[[]|e] st1]; [|reflexivity].
    unfold bind, ret. by destruct (os_chmod dest 493 h st1) as [[[]|e] st2].
Qed.

Lemma download_present (version directory : string) (h : host) (st : state) (n : node) :
  supported h = true →
  fs st !! destination_on h version directory = Some n →
  download_bazel_into_directory version directory h st =
    (Ok (destination_on h version directory),
     with_fs (<[destination_on h version directory := set_mode 493 n]> (fs st)) st).
Proof. intros Hsup Hn. rewrite download_run by done. by rewrite Hn. Qed.

Lemma download_fetch_fails (version directory : string) (h : host) (st : state) (e : exn) :
  supported h = true →
  fs st !! destination_on h version directory = None →
  fetch h (url_on h version) = Raise e →
  download_bazel_into_directory version directory h st =
    (Raise e, log (GET (url_on h version)) st).
Proof. intros Hsup Hn Hf. rewrite download_run by done. by rewrite Hn, Hf. Qed.


Lemma os_chmod_requests (p : string) (mode : N) (h : host) (st : state) :
  requests (os_chmod p mode h st).2 = requests st.
Proof. unfold os_chmod. by destruct (fs st !! p). Qed.

Lemma download_absent_requests (version directory : string) (h : host) (st : state) :
  supported h = true →
  fs st !! destination_on h version directory = None →
  requests (download_bazel_into_directory version directory h st).2
  = GET (url_on h version) :: requests st.
Proof.
  intros Hsup Hn. rewrite download_run by done. rewrite Hn.
  destruct (fetch h (url_on h version)) as [data|e]; [|reflexivity].
  pose proof (write_file_requests (destination_on h version directory) data h
                (log (GET (url_on h version)) st)) as Hw.
  destruct (write_file _ data h _) as [[[]|e] st1]; [|exact Hw].
  pose proof (os_chmod_requests (destination_on h version directory) 493 h st1) as Hc.
  destruct (os_chmod _ 493 h st1) as [[[]|e] st2]; simpl in *; congruence.
Qed.

(** Whenever the download returns, it returns the destination, whose
    node then has mode 0o755, and it has sent at most the one request. *)
Lemma download_returns (version directory p : string) (h : host) (st st' : state) :
  download_bazel_into_directory version directory h st = (Ok p, st') →
  supported h = true ∧
  p = destination_on h version directory ∧
  (∃ n, fs st' !! p = Some n ∧ node_mode n = 493%N) ∧
  (match fs st !! p with
   | Some _ => requests st' = requests st
   | None => requests st' = GET (url_on h version) :: requests st
   end).
Proof.
  intros Hrun. destruct (supported h) eqn:Hsup.
  2:{ unfold download_bazel_into_directory in Hrun. unfold bind at 1 in Hrun.
      rewrite determine_bazel_filename_unsupported in Hrun by done. discriminate. }
  split; [done|]. rewrite download_run in Hrun by done.
  set (dest := destination_on h version directory) in *.
  destruct (fs st !! dest) as [n|] eqn:Hdest.
  - injection Hrun as <- <-. rewrite Hdest. split; [done|]. split; [|done].
    exists (set_mode 493 n). simpl. rewrite lookup_insert_eq. split; [done|]. by destruct n.
  - destruct (fetch h (url_on h version)) as [data|e]; [|discriminate].
    pose proof (write_file_requests dest data h (log (GET (url_on h version)) st)) as Hreq.
    destruct (write_file dest data h _) as [[[]|e] st1]; [|discriminate].
    unfold os_chmod in Hrun.
    destruct (fs st1 !! dest) as [n|]; [|discriminate].
    injection Hrun as <- <-. rewrite Hdest. split; [done|]. split; [|done].
    exists (set_mode 493 n). simpl. rewrite lookup_insert_eq. split; [done|]. by destruct n.
Qed.



(** C10: every call of the download that returns, whether it fetched the
    artifact or found it in place, leaves the node at the returned path
    with permission bits 0o755, whatever they were before; so the owner
    may execute it. *)
Theorem download_sets_mode (h : host) (st st' : state) (version directory p : string) :
  download_bazel_into_directory version directory h st = (Ok p, st') →
  ∃ n, fs st' !! p = Some n ∧ node_mode n = 493%N ∧
       owner_executable (node_mode n) = true.
Proof.
  intros Hrun. apply download_returns in Hrun as (_ & _ & (n & Hn & Hmode) & _).
  exists n. split; [done|]. split; [done|]. by rewrite Hmode.
Qed.

Lemma download_sets_mode_witness :
  download_bazel_into_directory "9.1.0" bin_dir plain_host
    {| fs := <[artifact_path := File 384 0%Q "0123456789"]> launcher_fs; requests := [] |}
  = (Ok artifact_path,
     {| fs := <[artifact_path := File 493 0%Q "0123456789"]> launcher_fs; requests := [] |}) ∧
  ∃ n, <[artifact_path := File 493 0%Q "0123456789"]> launcher_fs !! artifact_path = Some n ∧
       node_mode n = 493%N ∧ owner_executable (node_mode n) = true.
Proof.
  assert (download_bazel_into_directory "9.1.0" bin_dir plain_host
            {| fs := <[artifact_path := File 384 0%Q "0123456789"]> launcher_fs;
               requests := [] |}
          = (Ok artifact_path,
             {| fs := <[artifact_path := File 493 0%Q "0123456789"]> launcher_fs;
                requests := [] |})) as Hrun by (vm_compute; reflexivity).
  split; [exact Hrun|].
  exact (download_sets_mode _ _ _ _ _ _ Hrun).
Defined.

Lemma same_platform (h h' : host) :
  machine h' = machine h → system h' = system h →
  supported h' = supported h ∧
  (∀ version, filename_on h' version = filename_on h version).
Proof.
  intros Hm Hs. unfold supported, supported_os, filename_on. by rewrite Hm, Hs.
Qed.

Lemma set_mode_same (n : node) (m : N) : node_mode n = m → set_mode m n = n.
Proof. intros <-. by destruct n. Qed.

Lemma with_fs_same (st : state) : with_fs (fs st) st = st.
Proof. by destruct st. Qed.

(** C4: the download is idempotent.  When a node is already at the
    destination, the call sends nothing over the network and returns the
    destination.  And when a call has returned, a second call right
    after it (at whatever time, on the same platform) returns the same
    path and changes nothing, so that the two calls together send the one
    request of the first, if the artifact was absent, and none
    otherwise. *)
Theorem download_idempotent (h h' : host) (st : state) (version directory : string) :
  supported h = true →
  machine h' = machine h →
  system h' = system h →
  (∀ n, fs st !! destination_on h version directory = Some n →
        ∃ st', download_bazel_into_directory version directory h st
                 = (Ok (destination_on h version directory), st') ∧
               requests st' = requests st) ∧
  (∀ p st1, download_bazel_into_directory version directory h st = (Ok p, st1) →
        download_bazel_into_directory version directory h' st1 = (Ok p, st1) ∧
        (download_bazel_into_directory version directory ;;
         download_bazel_into_directory version directory) h st = (Ok p, st1) ∧
        (fs st !! destination_on h version directory = None →
           requests st1 = GET (url_on h version) :: requests st)).
Proof.
  intros Hsup Hm Hs. split.
  - intros n Hn. eexists. split; [by apply download_present|]. reflexivity.
  - intros p st1 Hrun.
    assert (∀ h2, machine h2 = machine h → system h2 = system h →
              download_bazel_into_directory version directory h2 st1 = (Ok p, st1))
      as Hagain.
    { intros h2 Hm2 Hs2.
      destruct (same_platform h h2 Hm2 Hs2) as [Hsup2 Hname].
      destruct (download_returns _ _ _ _ _ _ Hrun) as (_ & -> & (n & Hn & Hmode) & _).
      assert (destination_on h2 version directory = destination_on h version directory)
        as Hdest by (unfold destination_on; by rewrite Hname).
      rewrite (download_present version directory h2 st1 n);
        rewrite ?Hdest; [|congruence|done].
      rewrite set_mode_same by done.
      rewrite insert_id by done. by rewrite with_fs_same. }
    split; [by apply Hagain|]. split.
    + unfold bind. rewrite Hrun. by apply Hagain.
    + intros Habsent.
      destruct (download_returns _ _ _ _ _ _ Hrun) as (_ & -> & _ & Hreq).
      by rewrite Habsent in Hreq.
Qed.

Lemma download_idempotent_witness :
  supported (host_at 0) = true ∧
  download_bazel_into_directory "9.1.0" bin_dir (host_at 0) (fresh_state launcher_fs)
    = (Ok artifact_path, downloaded_state) ∧
  download_bazel_into_directory "9.1.0" bin_dir (host_at 60) downloaded_state
    = (Ok artifact_path, downloaded_state) ∧
  (download_bazel_into_directory "9.1.0" bin_dir ;;
   download_bazel_into_directory "9.1.0" bin_dir) (host_at 0) (fresh_state launcher_fs)
    = (Ok artifact_path, downloaded_state) ∧
  requests downloaded_state = [GET artifact_url_910].
Proof.
  assert (download_bazel_into_directory "9.1.0" bin_dir (host_at 0) (fresh_state launcher_fs)
          = (Ok artifact_path, downloaded_state)) as Hrun by (vm_compute; reflexivity).
  destruct (download_idempotent (host_at 0) (host_at 60) (fresh_state launcher_fs)
              "9.1.0" bin_dir eq_refl eq_refl eq_refl) as [_ Htwice].
  destruct (Htwice artifact_path downloaded_state Hrun) as (Hagain & Hboth & Hreq).
  split; [reflexivity|]. split; [exact Hrun|]. split; [exact Hagain|].
  split; [exact Hboth|]. exact (Hreq eq_refl).
Defined.





(* ===================================================================== *)
(** * The whole run *)
(* ===================================================================== *)

Lemma os_makedirs_requests (p : string) (h : host) (st : state) :
  requests (os_makedirs p h st).2 = requests st.
Proof. unfold os_makedirs. by destruct (makedirs_fs h (fs st) p). Qed.

(** The selector changes nothing. *)
Lemma decide_which_bazel_version_to_use_state (h : host) (st : state) :
  (decide_which_bazel_version_to_use h st).2 = st.
Proof.
  unfold decide_which_bazel_version_to_use.
  unfold bind at 1. unfold ask at 1.
  destruct (environ h !! "USE_BAZEL_VERSION") as [v|]; [reflexivity|].
  unfold find_workspace_root. unfold bind, try_except, os_getcwd, get_fs, ret.
  destruct (getcwd h) as [cwd|]; [|by case_decide].
  destruct (find_workspace_root_from (fs st) cwd) as [root|]; [|reflexivity].
  destruct (truthy (Some root)); [|reflexivity].
  rewrite read_text_node.
  destruct (fs st !! Path.join root ".bazelversion") as [n|]; [|by case_decide].
  destruct (read_node n); [reflexivity | by case_decide].
Qed.

(** Resolving a version sends no GET request. *)
Lemma resolve_version_label_to_number_get_requests
    (dir version : string) (h : host) (st : state) :
  get_requests (resolve_version_label_to_number dir version h st).2 = get_requests st.
Proof.
  destruct (decide (version = "latest")) as [-> | Hne].
  2:{ unfold resolve_version_label_to_number. by rewrite decide_False. }
  assert (get_requests
            (match http_head h latest_url with
             | inl e => (@Raise string e, log (HEAD latest_url) st)
             | inr final =>
                 match write_file (Path.join dir "latest_bazel") (Str.last_segment final) h
                         (log (HEAD latest_url) st) with
                 | (Ok _, st') => (Ok (Str.last_segment final), st')
                 | (Raise e, st') => (Raise e, st')
                 end
             end).2 = get_requests st) as Hmiss.
  { destruct (http_head h latest_url) as [e|final]; [reflexivity|].
    pose proof (write_file_requests (Path.join dir "latest_bazel")
                  (Str.last_segment final) h (log (HEAD latest_url) st)) as Hw.
    unfold get_requests.
    destruct (write_file _ _ h _) as [[[]|e] st']; simpl in *; by rewrite Hw. }
  destruct (fs st !! Path.join dir "latest_bazel") as [n|] eqn:Hn.
  - destruct (fresh (now h) (node_mtime n)) eqn:Hfresh.
    + apply fresh_within_ttl in Hfresh.
      by rewrite (resolve_hit dir h st n Hn Hfresh).
    + rewrite resolve_miss; [exact Hmiss|].
      right. exists n. split; [done|]. intros Hin%fresh_within_ttl. congruence.
  - rewrite resolve_miss by (by left). exact Hmiss.
Qed.

(** On a host the script does not support, [main] never gets to launch
    anything, and never sends a GET request. *)
Lemma main_unsupported (argv : option (list string)) (h : host) (st : state) :
  supported h = false →
  ∃ e st', main argv h st = (Raise e, st') ∧ get_requests st' = get_requests st.
Proof.
  intros Hsup. unfold main.
  unfold bind at 1.
  assert (∃ a, (match argv with Some a => ret a | None => ask sys_argv end) h st
               = (Ok a, st)) as [a ->] by (destruct argv; eauto).
  unfold bind at 1. unfold ask at 1.
  unfold bind at 1.
  pose proof (os_makedirs_requests (Path.join (home h) ".bazelisk") h st) as H1.
  destruct (os_makedirs _ h st) as [[[]|e] st1]; [|exists e, st1; simpl in *;
    unfold get_requests; by rewrite H1].
  unfold bind at 1.
  pose proof (decide_which_bazel_version_to_use_state h st1) as H2.
  destruct (decide_which_bazel_version_to_use h st1) as [[v|e] st2];
    simpl in H1, H2; subst st2;
    [|exists e, st1; unfold get_requests; by rewrite H1].
  unfold bind at 1.
  pose proof (resolve_version_label_to_number_get_requests
                (Path.join (home h) ".bazelisk") v h st1) as H3.
  destruct (resolve_version_label_to_number _ v h st1) as [[v'|e] st3]; simpl in H3;
    [|exists e, st3; split; [done|]; rewrite H3; unfold get_requests; by rewrite H1].
  unfold bind at 1.
  pose proof (os_makedirs_requests
                (Path.join (Path.join (home h) ".bazelisk") "bin") h st3) as H4.
  destruct (os_makedirs _ h st3) as [[[]|e] st4]; simpl in H4.
  - unfold bind at 1. unfold download_bazel_into_directory. unfold bind at 1.
    rewrite determine_bazel_filename_unsupported by done.
    eexists _, st4. split; [reflexivity|].
    unfold get_requests in *. by rewrite H4, H3, H1.
  - exists e, st4. split; [done|]. unfold get_requests in *. by rewrite H4, H3, H1.
Qed.

(** C3 as stated fails: on an arm64 host [main] does end with the
    unsupported-architecture exception, but by then it has created both
    launcher directories, asked the network for the latest version and
    written the answer to the cache file. *)
Lemma unsupported_platform_counterexample :
  supported arm_host = false ∧
  main None arm_host (fresh_state bare_fs)
  = (Raise (Exception_
       "Unsupported machine architecture 'arm64'. Bazel currently only supports x86_64."),
     {| fs := <["/home/u/.bazelisk/bin" := Dir 493 0%Q]>
                (<["/home/u/.bazelisk/latest_bazel" := File 420 0%Q "9.1.0"]>
                   (<["/home/u/.bazelisk" := Dir 493 0%Q]> bare_fs));
        requests := [HEAD latest_url] |}) ∧
  fs (main None arm_host (fresh_state bare_fs)).2 ≠ bare_fs ∧
  requests (main None arm_host (fresh_state bare_fs)).2 ≠ [].
Proof.
  split; [reflexivity|]. split; [vm_compute; reflexivity|].
  split; [|vm_compute; discriminate].
  intros Heq.
  assert (fs (main None arm_host (fresh_state bare_fs)).2 !! "/home/u/.bazelisk"
          = bare_fs !! "/home/u/.bazelisk") as Hlook by (by rewrite Heq).
  vm_compute in Hlook. discriminate.
Qed.

(** C3 (amended): on a host whose architecture is not x86_64 or whose
    system is not Linux, macOS or Windows, the download step raises the
    unsupported-platform exception before it sends any request or writes
    anything, and [main] ends with an exception without ever requesting
    an artifact.  ([main] has by then created its directories and
    resolved the version.) *)
Theorem unsupported_platform_rejected (h : host) (st : state) :
  supported h = false →
  (∀ version directory,
     download_bazel_into_directory version directory h st
       = (Raise (platform_error h), st)) ∧
  (∀ argv, ∃ e st', main argv h st = (Raise e, st') ∧
                    get_requests st' = get_requests st).
Proof.
  intros Hsup. split.
  - intros version directory. unfold download_bazel_into_directory. unfold bind at 1.
    by rewrite determine_bazel_filename_unsupported.
  - intros argv. by apply main_unsupported.
Qed.

Lemma unsupported_platform_rejected_witness :
  supported arm_host = false ∧
  download_bazel_into_directory "9.1.0" bin_dir arm_host (fresh_state launcher_fs)
    = (Raise (Exception_
         "Unsupported machine architecture 'arm64'. Bazel currently only supports x86_64."),
       fresh_state launcher_fs) ∧
  ∃ e st', main None arm_host (fresh_state launcher_fs) = (Raise e, st') ∧
           get_requests st' = [].
Proof.
  split; [reflexivity|].
  destruct (unsupported_platform_rejected arm_host (fresh_state launcher_fs) eq_refl)
    as [Hstep Hmain].
  split; [exact (Hstep "9.1.0" bin_dir) | exact (Hmain None)].
Defined.

(* ===================================================================== *)
(** * What a resolved version may look like *)
(* ===================================================================== *)

Lemma last_segment_l_no_sep (pre acc l : list ascii) :
  acc = pre ++ l → existsb Str.is_sep pre = false →
  existsb Str.is_sep (Str.last_segment_l acc l) = false.
Proof.
  revert pre acc. induction l as [|c r IH]; intros pre acc Hacc Hpre; simpl.
  - subst acc. by rewrite app_nil_r.
  - destruct (Str.is_sep c) eqn:Hc.
    + by apply (IH []).
    + apply (IH (pre ++ [c])).
      * subst acc. by rewrite <- app_assoc.
      * rewrite existsb_app, Hpre. simpl. by rewrite Hc.
Qed.

Lemma last_segment_no_sep (s : string) : Str.contains_sep (Str.last_segment s) = false.
Proof.
  unfold Str.contains_sep, Str.last_segment, Str.to_list, Str.of_list.
  rewrite list_ascii_of_string_of_list_ascii.
  by apply (last_segment_l_no_sep []).
Qed.

(** C8 as stated fails: nothing checks a version before it is used.  An
    empty override is resolved to the empty version, from which [main]
    builds the download URL and file name; an override with path
    separators is resolved to itself. *)
Lemma resolved_version_counterexample :
  (let* v := decide_which_bazel_version_to_use in
   resolve_version_label_to_number cache_dir v)
    (override_host EmptyString) (fresh_state launcher_fs)
  = (Ok EmptyString, fresh_state launcher_fs) ∧
  requests (main None (override_host EmptyString) (fresh_state bare_fs)).2
  = [GET "https://releases.bazel.build//release/bazel--linux-x86_64"] ∧
  (let* v := decide_which_bazel_version_to_use in
   resolve_version_label_to_number cache_dir v)
    (override_host "../../tmp/x") (fresh_state launcher_fs)
  = (Ok "../../tmp/x", fresh_state launcher_fs) ∧
  Str.contains_sep "../../tmp/x" = true.
Proof. repeat split; vm_compute; reflexivity. Qed.

(** C8 (amended): a version is used as it was found.  The override is
    taken verbatim, any version other than "latest" passes through the
    resolution unchanged, and neither is checked, so either may be empty
    or contain path separators.  Only a version answered by the
    latest-release query is free of "/", being the last "/"-separated
    segment of the URL the query ends at. *)
Theorem resolved_version_unvalidated (h : host) (st : state) (dir : string) :
  (∀ v, environ h !! "USE_BAZEL_VERSION" = Some v →
        decide_which_bazel_version_to_use h st = (Ok v, st)) ∧
  (∀ v, v ≠ "latest" →
        resolve_version_label_to_number dir v h st = (Ok v, st)) ∧
  (∀ v st', resolve_latest_version h st = (Ok v, st') →
            Str.contains_sep v = false).
Proof.
  split; [|split].
  - intros v Hv. unfold decide_which_bazel_version_to_use.
    unfold bind at 1. unfold ask at 1. by rewrite Hv.
  - intros v Hv. unfold resolve_version_label_to_number. by rewrite decide_False.
  - intros v st'. rewrite resolve_latest_version_run.
    destruct (http_head h latest_url) as [e|final]; [discriminate|].
    intros [= <- _]. apply last_segment_no_sep.
Qed.

Lemma resolved_version_unvalidated_witness :
  decide_which_bazel_version_to_use (override_host "a/b") (fresh_state launcher_fs)
    = (Ok "a/b", fresh_state launcher_fs) ∧
  resolve_version_label_to_number cache_dir "a/b" (override_host "a/b")
      (fresh_state launcher_fs)
    = (Ok "a/b", fresh_state launcher_fs) ∧
  resolve_latest_version (override_host "a/b") (fresh_state launcher_fs)
    = (Ok "9.1.0", log (HEAD latest_url) (fresh_state launcher_fs)) ∧
  Str.contains_sep "9.1.0" = false.
Proof.
  destruct (resolved_version_unvalidated (override_host "a/b")
              (fresh_state launcher_fs) cache_dir) as (Henv & Hpass & Hlatest).
  assert (resolve_latest_version (override_host "a/b") (fresh_state launcher_fs)
          = (Ok "9.1.0", log (HEAD latest_url) (fresh_state launcher_fs))) as Hrun
    by (vm_compute; reflexivity).
  split; [exact (Henv "a/b" eq_refl)|].
  split; [apply Hpass; discriminate|].
  split; [exact Hrun | exact (Hlatest _ _ Hrun)].
Defined.

(* ===================================================================== *)
(** * Two runs of the whole script *)
(* ===================================================================== *)

(** A first run with no override, no pin file and an empty cache: the
    latest version is asked for and stored, the artifact is fetched into
    the launcher's [bin] directory, made executable and launched. *)
Example first_run :
  main None (host_at 10000) (fresh_state bare_fs)
  = (Ok 0%Z,
     {| fs := <[artifact_path := File 493 10000%Q "0123456789"]>
                (<[bin_dir := Dir 493 10000%Q]>
                   (<["/home/u/.bazelisk/latest_bazel" := File 420 10000%Q "9.1.0"]>
                      (<[cache_dir := Dir 493 10000%Q]> bare_fs)));
        requests := [GET artifact_url_910; HEAD latest_url] |}).
Proof. vm_compute. reflexivity. Qed.

(** A stream that ends early without raising is not told apart from a
    complete one: what was read is written. *)
Example short_stream_is_written :
  download_bazel_into_directory "9.1.0" bin_dir
    {| environ := ∅; sys_argv := []; getcwd := Some "/w/p"; home := "/home/u";
       umask := 18%N; machine := "x86_64"; system := "Linux"; now := 0%Q;
       http_head := fun _ => inl URLError;
       http_get := fun _ => inr {| content_length := Some 10%Z;
                                   body := Chunk "01234" Eof |};
       spawn := fun _ _ => inr 0%Z |}
    (fresh_state launcher_fs)
  = (Ok artifact_path,
     {| fs := <[artifact_path := File 493 0%Q "01234"]> launcher_fs;
        requests := [GET artifact_url_910] |}).
Proof. vm_compute. reflexivity. Qed.

(* ===================================================================== *)
(** * More on the upward walk and the selector *)
(* ===================================================================== *)





(** X2: the selector only reads.  Whatever it answers, the file system
    and the request log are as before, and the exception it ends with,
    if any, is never [FileNotFoundError]: absence is always turned into
    "latest". *)
Theorem selector_only_reads (h : host) (st : state) :
  (decide_which_bazel_version_to_use h st).2 = st ∧
  (decide_which_bazel_version_to_use h st).1 ≠ Raise FileNotFoundError.
Proof.
  rewrite decide_which_bazel_version_to_use_outcome. split; [reflexivity|]. simpl.
  unfold selector_outcome.
  destruct (environ h !! "USE_BAZEL_VERSION"); [done|].
  destruct (pin_node h (fs st)) as [n|]; [|done].
  destruct (read_node n) as [c|e] eqn:Hread; [done|].
  apply read_node_not_absent in Hread. congruence.
Qed.

(** X3: when the working directory no longer exists, [os.getcwd()]
    raises [FileNotFoundError] inside the [try] block, and the selector
    (with no override) answers "latest". *)
Theorem selector_without_working_directory (h : host) (st : state) :
  getcwd h = None →
  environ h !! "USE_BAZEL_VERSION" = None →
  os_getcwd h st = (Raise FileNotFoundError, st) ∧
  decide_which_bazel_version_to_use h st = (Ok "latest", st).
Proof.
  intros Hcwd Henv. split; [unfold os_getcwd; by rewrite Hcwd|].
  rewrite decide_which_bazel_version_to_use_outcome.
  unfold selector_outcome, pin_node. by rewrite Henv, Hcwd.
Qed.

Lemma selector_without_working_directory_witness :
  getcwd lost_host = None ∧
  environ lost_host !! "USE_BAZEL_VERSION" = None ∧
  decide_which_bazel_version_to_use lost_host readable_pin_state
    = (Ok "latest", readable_pin_state).
Proof.
  split; [reflexivity|]. split; [reflexivity|].
  apply (selector_without_working_directory lost_host readable_pin_state eq_refl eq_refl).
Defined.



Lemma drop_while_all (f : ascii → bool) (l : list ascii) :
  forallb f l = true → Str.drop_while f l = [].
Proof.
  induction l as [|c r IH]; simpl; [done|].
  destruct (f c); [exact IH | done].
Qed.



Lemma strip_blank (s : string) : blank s = true → Str.strip s = EmptyString.
Proof.
  unfold blank, Str.strip, Str.lstrip_l, Str.rstrip_l. intros Hall.
  rewrite (drop_while_all _ _ Hall). reflexivity.
Qed.



(** X5: a pin file that is empty or holds only white space does not fall
    back to "latest": the selector answers the empty version. *)
Theorem blank_pin_selects_empty_version
    (h : host) (st : state) (n : node) (contents : string) :
  environ h !! "USE_BAZEL_VERSION" = None →
  pin_node h (fs st) = Some n →
  read_node n = Ok contents →
  blank contents = true →
  decide_which_bazel_version_to_use h st = (Ok EmptyString, st).
Proof.
  intros Henv Hpin Hread Hblank.
  rewrite decide_which_bazel_version_to_use_outcome.
  unfold selector_outcome. rewrite Henv, Hpin, Hread. by rewrite strip_blank.
Qed.

Lemma blank_pin_selects_empty_version_witness :
  decide_which_bazel_version_to_use plain_host
    (fresh_state (pinned_fs (File 420 0%Q newline)))
  = (Ok EmptyString, fresh_state (pinned_fs (File 420 0%Q newline))).
Proof.
  apply (blank_pin_selects_empty_version plain_host _ (File 420 0%Q newline) newline);
    reflexivity.
Defined.

(* ===================================================================== *)
(** * More on resolving "latest" *)
(* ===================================================================== *)

Lemma to_list_app (a b : string) :
  Str.to_list (a +:+ b) = Str.to_list a ++ Str.to_list b.
Proof. induction a as [|c a IH]; simpl; [done|]. by rewrite <- IH. Qed.

Lemma last_segment_l_no_sep_left (acc l : list ascii) :
  existsb Str.is_sep l = false → Str.last_segment_l acc l = acc.
Proof.
  revert acc. induction l as [|c r IH]; intros acc; simpl; [done|].
  destruct (Str.is_sep c); simpl; [done | apply IH].
Qed.

Lemma last_segment_l_after_sep (acc pre v : list ascii) (c : ascii) :
  Str.is_sep c = true → existsb Str.is_sep v = false →
  Str.last_segment_l acc (pre ++ c :: v) = v.
Proof.
  intros Hc Hv. revert acc. induction pre as [|x pre IH]; intros acc; simpl.
  - rewrite Hc. by apply last_segment_l_no_sep_left.
  - destruct (Str.is_sep x); apply IH.
Qed.

Lemma last_segment_after_sep (prefix v : string) :
  Str.contains_sep v = false → Str.last_segment (prefix +:+ "/" +:+ v) = v.
Proof.
  unfold Str.contains_sep, Str.last_segment. intros Hv.
  rewrite !to_list_app. simpl.
  rewrite last_segment_l_after_sep by done.
  apply string_of_list_ascii_of_string.
Qed.

(** X6: the latest version is the last segment of the URL the HEAD
    request ends at.  When that URL is "<prefix>/<v>" and [v] has no
    "/", the answer is [v], also when [v] is empty (a URL with a trailing
    "/"); the one request is logged and no file is touched. *)
Theorem latest_version_is_last_segment (h : host) (st : state) (prefix v : string) :
  http_head h latest_url = inr (prefix +:+ "/" +:+ v) →
  Str.contains_sep v = false →
  resolve_latest_version h st
    = (Ok v, {| fs := fs st; requests := HEAD latest_url :: requests st |}).
Proof.
  intros Hhead Hv. rewrite resolve_latest_version_run, Hhead.
  by rewrite last_segment_after_sep.
Qed.

Lemma latest_version_is_last_segment_witness :
  resolve_latest_version
    (redirected_host "https://github.com/bazelbuild/bazel/releases/tag/9.1.0")
    (fresh_state launcher_fs)
  = (Ok "9.1.0", {| fs := launcher_fs; requests := [HEAD latest_url] |}) ∧
  resolve_latest_version
    (redirected_host "https://github.com/bazelbuild/bazel/releases/")
    (fresh_state launcher_fs)
  = (Ok EmptyString, {| fs := launcher_fs; requests := [HEAD latest_url] |}).
Proof.
  split.
  - apply (latest_version_is_last_segment
             (redirected_host "https://github.com/bazelbuild/bazel/releases/tag/9.1.0")
             (fresh_state launcher_fs)
             "https://github.com/bazelbuild/bazel/releases/tag" "9.1.0"); reflexivity.
  - apply (latest_version_is_last_segment
             (redirected_host "https://github.com/bazelbuild/bazel/releases/")
             (fresh_state launcher_fs)
             "https://github.com/bazelbuild/bazel/releases" EmptyString); reflexivity.
Defined.

Lemma write_file_fails (p data : string) (h : host) (st : state) :
  writable_path (fs st) p = false → ∃ e, write_file p data h st = (Raise e, st).
Proof.
  unfold writable_path, write_file.
  destruct (fs st !! p) as [[m t|m t d]|]; [eauto | intros ->; eauto |].
  destruct (fs st !! Path.dirname p) as [[m t|m t d]|]; [done | eauto | eauto].
Qed.

(** X7: a cache entry that is within its hour but cannot be read is not
    treated as a miss: resolution raises the exception of the failed
    [open] (never [FileNotFoundError]), sends nothing and writes
    nothing. *)
Theorem unreadable_cache_raises (h : host) (st : state) (dir : string) (n : node) :
  fs st !! Path.join dir "latest_bazel" = Some n →
  (Qabs (now h - node_mtime n) < 3600)%Q →
  readable n = false →
  ∃ e, e ≠ FileNotFoundError ∧
       resolve_version_label_to_number dir "latest" h st = (Raise e, st).
Proof.
  intros Hn Hfresh Hread. rewrite (resolve_hit dir h st n Hn Hfresh).
  unfold readable in Hread. destruct (read_node n) as [c|e] eqn:He; [done|].
  exists e. split; [by eapply read_node_not_absent | done].
Qed.

Lemma unreadable_cache_raises_witness :
  resolve_version_label_to_number cache_dir "latest" (host_at 10) 
    (fresh_state (<["/home/u/.bazelisk/latest_bazel" := File 0 0%Q "9.1.0"]> launcher_fs))
  = (Raise PermissionError,
     fresh_state (<["/home/u/.bazelisk/latest_bazel" := File 0 0%Q "9.1.0"]> launcher_fs)).
Proof.
  destruct (unreadable_cache_raises (host_at 10)
              (fresh_state (<["/home/u/.bazelisk/latest_bazel" := File 0 0%Q "9.1.0"]>
                              launcher_fs))
              cache_dir (File 0 0%Q "9.1.0")) as (e & _ & Hrun);
    [reflexivity | reflexivity | reflexivity |].
  rewrite Hrun. vm_compute in Hrun. by injection Hrun as <-.
Defined.







(** X11: the bound is strict.  A cache entry whose time stamp is an hour
    or more away from the current time, in either direction, is not
    used: the query is sent. *)
Theorem cache_expires_at_one_hour (h : host) (st : state) (dir : string) (n : node) :
  fs st !! Path.join dir "latest_bazel" = Some n →
  (node_mtime n <= now h - 3600 ∨ now h + 3600 <= node_mtime n)%Q →
  requests (resolve_version_label_to_number dir "latest" h st).2
    = HEAD latest_url :: requests st.
Proof.
  intros Hn Hout. rewrite resolve_miss.
  - destruct (http_head h latest_url) as [e|final]; [reflexivity|].
    pose proof (write_file_requests (Path.join dir "latest_bazel")
                  (Str.last_segment final) h (log (HEAD latest_url) st)) as Hreq.
    by destruct (write_file _ _ _ _) as [[] st'].
  - right. exists n. split; [done|].
    intros [Hlo Hhi]%Qabs_diff_Qlt_condition.
    destruct Hout as [Hle | Hle];
      [exact (Qlt_not_le _ _ Hlo Hle) | exact (Qlt_not_le _ _ Hhi Hle)].
Qed.

Lemma cache_expires_at_one_hour_witness :
  requests (resolve_version_label_to_number cache_dir "latest" (host_at 13600)
              {| fs := fs cached_state; requests := [] |}).2
  = [HEAD latest_url].
Proof.
  apply (cache_expires_at_one_hour (host_at 13600)
           {| fs := fs cached_state; requests := [] |} cache_dir
           (File 420 10000%Q "9.1.0")); [reflexivity|].
  left. vm_compute. discriminate.
Defined.

(* ===================================================================== *)
(** * More on naming and the download *)
(* ===================================================================== *)

Lemma drop_while_skip (f : ascii → bool) (a b : list ascii) :
  forallb f a = true → Str.drop_while f (a ++ b) = Str.drop_while f b.
Proof.
  induction a as [|c a IH]; simpl; [done|].
  destruct (f c); [exact IH | done].
Qed.

Lemma existsb_reverse (f : ascii → bool) (l : list ascii) :
  existsb f (rev l) = existsb f l.
Proof.
  induction l as [|c l IH]; simpl; [done|].
  rewrite existsb_app, IH. simpl. destruct (f c), (existsb f l); reflexivity.
Qed.

Lemma forallb_not_sep (l : list ascii) :
  existsb Str.is_sep l = false → forallb (fun c => negb (Str.is_sep c)) l = true.
Proof.
  induction l as [|c l IH]; simpl; [done|].
  destruct (Str.is_sep c); simpl; [done | exact IH].
Qed.

Lemma dirname_l_join (d name : list ascii) (c : ascii) (r : list ascii) :
  rev d = c :: r → Str.is_sep c = false → existsb Str.is_sep name = false →
  Path.dirname_l (d ++ "/"%char :: name) = d.
Proof.
  intros Hd Hc Hname.
  assert (d = rev r ++ [c]) as Hdr
    by (rewrite <- (rev_involutive d), Hd; reflexivity).
  assert (Path.head_l (d ++ "/"%char :: name) = d ++ ["/"%char]) as Hhead.
  { unfold Path.head_l. rewrite rev_app_distr. simpl. rewrite <- app_assoc.
    rewrite drop_while_skip
      by (apply forallb_not_sep; by rewrite existsb_reverse).
    simpl. by rewrite rev_involutive. }
  unfold Path.dirname_l. rewrite Hhead.
  assert (forallb Str.is_sep (d ++ ["/"%char]) = false) as ->.
  { rewrite Hdr, !forallb_app. simpl. rewrite Hc. simpl.
    by rewrite andb_false_r. }
  destruct (d ++ ["/"%char]) eqn:Hne; [by destruct d|]. rewrite <- Hne. simpl.
  unfold Str.rstrip_l. rewrite rev_app_distr. simpl. rewrite Hd. simpl. rewrite Hc.
  by rewrite <- Hd, rev_involutive.
Qed.

Lemma filename_on_list (h : host) (version : string) :
  Str.to_list (filename_on h version)
  = Str.to_list "bazel-" ++ Str.to_list version ++ Str.to_list "-" ++
    Str.to_list (Str.lower (system h)) ++ Str.to_list "-" ++ Str.to_list (machine h).
Proof. unfold filename_on, artifact_filename. by rewrite !to_list_app. Qed.

Lemma filename_on_no_sep (h : host) (version : string) :
  supported h = true → Str.contains_sep version = false →
  Str.contains_sep (filename_on h version) = false.
Proof.
  intros [Hm Hos]%supported_inv Hv. unfold Str.contains_sep in *.
  rewrite filename_on_list, !existsb_app, Hv, Hm.
  assert (existsb Str.is_sep (Str.to_list (Str.lower (system h))) = false) as ->; [|done].
  repeat (apply elem_of_cons in Hos as [-> | Hos]; [reflexivity|]).
  by apply elem_of_nil in Hos.
Qed.

(** X12: for a version without "/" the artifact is a direct entry of the
    download directory: the file name the script builds has no path
    separator, and the parent of the destination is the directory it was
    given (a non-empty name without a trailing "/"). *)
Theorem artifact_stays_in_directory (h : host) (version directory : string) :
  supported h = true →
  Str.contains_sep version = false →
  plain_directory directory = true →
  Str.contains_sep (filename_on h version) = false ∧
  Path.dirname (destination_on h version directory) = directory.
Proof.
  intros Hsup Hv Hdir.
  pose proof (filename_on_no_sep h version Hsup Hv) as Hname.
  split; [exact Hname|].
  unfold plain_directory in Hdir.
  destruct (rev (Str.to_list directory)) as [|c r] eqn:Hrev; [done|].
  apply negb_true_iff in Hdir.
  assert (destination_on h version directory
          = directory +:+ "/" +:+ filename_on h version) as ->.
  { unfold destination_on, Path.join.
    rewrite filename_on_list. simpl.
    unfold Path.ends_with_sep. rewrite Hrev. simpl. rewrite Hdir.
    destruct (Str.to_list directory) eqn:Hd; [done|]. reflexivity. }
  unfold Path.dirname. rewrite !to_list_app. simpl.
  rewrite (dirname_l_join _ _ c r) by done.
  apply string_of_list_ascii_of_string.
Qed.

Lemma artifact_stays_in_directory_witness :
  supported plain_host = true ∧
  Str.contains_sep "9.1.0" = false ∧
  plain_directory bin_dir = true ∧
  Path.dirname (destination_on plain_host "9.1.0" bin_dir) = bin_dir.
Proof.
  split; [reflexivity|]. split; [reflexivity|]. split; [reflexivity|].
  apply (artifact_stays_in_directory plain_host "9.1.0" bin_dir eq_refl eq_refl eq_refl).
Defined.







Lemma read_blocks_zero (u : stream) (blocks : list string) (total : Z) :
  (∀ e, u ≠ Broken e) → read_blocks u blocks total 0 = Raise ZeroDivisionError.
Proof. destruct u as [|e|block rest]; intros Hu; [done | by destruct (Hu e) | done]. Qed.

(** X13: a response announcing [Content-Length: 0] cannot be downloaded,
    not even when its body is empty as announced: the progress display
    divides by the announced size after the first read, the download
    ends with [ZeroDivisionError], and nothing is written. *)
Theorem zero_content_length_raises
    (h : host) (st : state) (version directory : string) (u : response) :
  supported h = true →
  fs st !! destination_on h version directory = None →
  http_get h (url_on h version) = inr u →
  content_length u = Some 0%Z →
  (∀ e, body u ≠ Broken e) →
  download_bazel_into_directory version directory h st
    = (Raise ZeroDivisionError,
       {| fs := fs st; requests := GET (url_on h version) :: requests st |}).
Proof.
  intros Hsup Habsent Hget Hlen Hbody.
  apply download_fetch_fails; [done | done |].
  unfold fetch. rewrite Hget, Hlen. by rewrite read_blocks_zero.
Qed.

Lemma zero_content_length_raises_witness :
  download_bazel_into_directory "9.1.0" bin_dir
    (serving_host {| content_length := Some 0%Z; body := Eof |}) (fresh_state launcher_fs)
  = (Raise ZeroDivisionError,
     {| fs := launcher_fs; requests := [GET artifact_url_910] |}).
Proof.
  apply (zero_content_length_raises
           (serving_host {| content_length := Some 0%Z; body := Eof |})
           (fresh_state launcher_fs) "9.1.0" bin_dir
           {| content_length := Some 0%Z; body := Eof |});
    try reflexivity.
  intros e. discriminate.
Defined.

(** X14: a response without a [Content-Length] header ends the download
    with [TypeError] before anything is read from the body or written. *)
Theorem missing_content_length_raises
    (h : host) (st : state) (version directory : string) (u : response) :
  supported h = true →
  fs st !! destination_on h version directory = None →
  http_get h (url_on h version) = inr u →
  content_length u = None →
  download_bazel_into_directory version directory h st
    = (Raise TypeError,
       {| fs := fs st; requests := GET (url_on h version) :: requests st |}).
Proof.
  intros Hsup Habsent Hget Hlen.
  apply download_fetch_fails; [done | done |].
  unfold fetch. by rewrite Hget, Hlen.
Qed.

Lemma missing_content_length_raises_witness :
  download_bazel_into_directory "9.1.0" bin_dir
    (serving_host {| content_length := None; body := Chunk "0123456789" Eof |})
    (fresh_state launcher_fs)
  = (Raise TypeError, {| fs := launcher_fs; requests := [GET artifact_url_910] |}).
Proof.
  apply (missing_content_length_raises
           (serving_host {| content_length := None; body := Chunk "0123456789" Eof |})
           (fresh_state launcher_fs) "9.1.0" bin_dir
           {| content_length := None; body := Chunk "0123456789" Eof |});
    reflexivity.
Defined.



(** X16: the artifact is fetched before the destination is opened.  When
    the destination cannot be written (its directory is missing, say),
    the download raises only after the whole transfer, and nothing is
    stored. *)
Theorem unwritable_destination_raises
    (h : host) (st : state) (version directory data : string) :
  supported h = true →
  fs st !! destination_on h version directory = None →
  writable_path (fs st) (destination_on h version directory) = false →
  fetch h (url_on h version) = Ok data →
  ∃ e, download_bazel_into_directory version directory h st
       = (Raise e, {| fs := fs st; requests := GET (url_on h version) :: requests st |}).
Proof.
  intros Hsup Habsent Hw Hfetch. rewrite download_run by done.
  rewrite Habsent, Hfetch.
  destruct (write_file_fails (destination_on h version directory) data h
              (log (GET (url_on h version)) st) Hw) as [e ->].
  by exists e.
Qed.

Lemma unwritable_destination_raises_witness :
  download_bazel_into_directory "9.1.0" bin_dir plain_host (fresh_state bare_fs)
  = (Raise FileNotFoundError, {| fs := bare_fs; requests := [GET artifact_url_910] |}).
Proof.
  destruct (unwritable_destination_raises plain_host (fresh_state bare_fs)
              "9.1.0" bin_dir "0123456789") as [e Hrun];
    [reflexivity | reflexivity | reflexivity | reflexivity |].
  rewrite Hrun. vm_compute in Hrun. by injection Hrun as <-.
Defined.

(* ===================================================================== *)
(** * More on the whole run *)
(* ===================================================================== *)

(** The arguments [main] works with. *)
Lemma main_argv (argv : option (list string)) (h : host) (st : state) :
  (match argv with Some a => ret a | None => ask sys_argv end) h st
  = (Ok (default (sys_argv h) argv), st).
Proof. by destruct argv. Qed.

(** X17: when [main] returns, it returns the exit code of the process it
    launched: the artifact of some version in [~/.bazelisk/bin], which by
    then is there with mode 0o755, started with the arguments after the
    program name (none when the argument list is empty). *)
Theorem main_returns_exit_code_of_artifact
    (argv : option (list string)) (h : host) (st st' : state) (code : Z) :
  main argv h st = (Ok code, st') →
  ∃ version,
    supported h = true ∧
    spawn h (destination_on h version
               (Path.join (Path.join (home h) ".bazelisk") "bin"))
            (drop 1 (default (sys_argv h) argv)) = inr code ∧
    ∃ n, fs st' !! destination_on h version
                     (Path.join (Path.join (home h) ".bazelisk") "bin") = Some n ∧
         node_mode n = 493%N.
Proof.
  unfold main. unfold bind at 1. rewrite main_argv.
  unfold bind at 1. unfold ask at 1.
  unfold bind at 1.
  destruct (os_makedirs _ h st) as [[[]|e] st1]; [|discriminate].
  unfold bind at 1.
  destruct (decide_which_bazel_version_to_use h st1) as [[v|e] st2]; [|discriminate].
  unfold bind at 1.
  destruct (resolve_version_label_to_number _ v h st2) as [[version|e] st3]; [|discriminate].
  unfold bind at 1.
  destruct (os_makedirs _ h st3) as [[[]|e] st4]; [|discriminate].
  unfold bind at 1.
  destruct (download_bazel_into_directory version _ h st4) as [[p|e] st5] eqn:Hdown;
    [|discriminate].
  apply download_returns in Hdown as (Hsup & -> & Hnode & _).
  unfold popen_wait.
  destruct (spawn h _ _) as [e|c] eqn:Hspawn; [discriminate|].
  intros [= <- <-]. exists version. split; [done|]. split; [exact Hspawn | exact Hnode].
Qed.

Lemma main_returns_exit_code_of_artifact_witness :
  main (Some []) (host_at 0) (fresh_state bare_fs)
    = (Ok 0%Z, (main (Some []) (host_at 0) (fresh_state bare_fs)).2) ∧
  ∃ version,
    supported (host_at 0) = true ∧
    spawn (host_at 0) (destination_on (host_at 0) version bin_dir) [] = inr 0%Z ∧
    ∃ n, fs (main (Some []) (host_at 0) (fresh_state bare_fs)).2
           !! destination_on (host_at 0) version bin_dir = Some n ∧
         node_mode n = 493%N.
Proof.
  assert (main (Some []) (host_at 0) (fresh_state bare_fs)
          = (Ok 0%Z, (main (Some []) (host_at 0) (fresh_state bare_fs)).2)) as Hrun
    by (vm_compute; reflexivity).
  split; [exact Hrun|].
  exact (main_returns_exit_code_of_artifact _ _ _ _ _ Hrun).
Defined.

Lemma download_requests_cases (version directory : string) (h : host) (st : state) :
  requests (download_bazel_into_directory version directory h st).2 = requests st ∨
  requests (download_bazel_into_directory version directory h st).2
    = GET (url_on h version) :: requests st.
Proof.
  destruct (supported h) eqn:Hsup.
  - destruct (fs st !! destination_on h version directory) as [n|] eqn:Hn.
    + left. by rewrite (download_present _ _ _ _ n).
    + right. by apply download_absent_requests.
  - left. unfold download_bazel_into_directory. unfold bind at 1.
    by rewrite determine_bazel_filename_unsupported.
Qed.

(** X18: with an override other than "latest", [main] never asks for the
    latest release: whatever else happens in the run, no HEAD request is
    sent. *)
Theorem explicit_version_skips_latest_query
    (argv : option (list string)) (h : host) (st : state) (v : string) :
  environ h !! "USE_BAZEL_VERSION" = Some v →
  v ≠ "latest" →
  head_requests (main argv h st).2 = head_requests st.
Proof.
  intros Henv Hv. unfold main. unfold bind at 1. rewrite main_argv.
  unfold bind at 1. unfold ask at 1.
  unfold bind at 1.
  pose proof (os_makedirs_requests (Path.join (home h) ".bazelisk") h st) as H1.
  destruct (os_makedirs _ h st) as [[[]|e] st1]; simpl in H1;
    [|unfold head_requests; simpl; by rewrite H1].
  unfold bind at 1. rewrite decide_which_bazel_version_to_use_outcome.
  unfold selector_outcome. rewrite Henv.
  unfold bind at 1. unfold resolve_version_label_to_number. rewrite decide_False by done.
  unfold ret at 1.
  unfold bind at 1.
  pose proof (os_makedirs_requests
                (Path.join (Path.join (home h) ".bazelisk") "bin") h st1) as H2.
  destruct (os_makedirs _ h st1) as [[[]|e] st2]; simpl in H2;
    [|unfold head_requests; simpl; by rewrite H2, H1].
  unfold bind at 1.
  pose proof (download_requests_cases v
                (Path.join (Path.join (home h) ".bazelisk") "bin") h st2) as H3.
  destruct (download_bazel_into_directory v _ h st2) as [[p|e] st3]; simpl in H3.
  - unfold popen_wait. unfold head_requests.
    destruct (spawn h p _); simpl; destruct H3 as [-> | ->]; simpl; by rewrite H2, H1.
  - unfold head_requests. simpl. destruct H3 as [-> | ->]; simpl; by rewrite H2, H1.
Qed.

Lemma explicit_version_skips_latest_query_witness :
  environ (override_host "7.0.0") !! "USE_BAZEL_VERSION" = Some "7.0.0" ∧
  head_requests (main None (override_host "7.0.0") (fresh_state bare_fs)).2 = [].
Proof.
  split; [reflexivity|].
  apply (explicit_version_skips_latest_query None (override_host "7.0.0")
           (fresh_state bare_fs) "7.0.0" eq_refl).
  discriminate.
Defined.

Lemma join_plain (d name : string) :
  plain_directory d = true →
  Path.starts_with_sep (Str.to_list name) = false →
  Path.join d name = d +:+ "/" +:+ name.
Proof.
  unfold plain_directory, Path.join, Path.ends_with_sep. intros Hd ->.
  destruct (rev (Str.to_list d)) as [|c r] eqn:Hrev; [done|].
  apply negb_true_iff in Hd. simpl. rewrite Hd.
  by destruct (Str.to_list d).
Qed.

Lemma no_sep_not_leading (l : list ascii) :
  existsb Str.is_sep l = false → Path.starts_with_sep l = false.
Proof. destruct l as [|c l]; simpl; [done|]. by intros [? _]%orb_false_elim. Qed.

Lemma dirname_join (d name : string) :
  plain_directory d = true →
  Str.contains_sep name = false →
  Path.dirname (Path.join d name) = d.
Proof.
  intros Hd Hname. rewrite join_plain by (by try apply no_sep_not_leading).
  unfold plain_directory in Hd.
  destruct (rev (Str.to_list d)) as [|c r] eqn:Hrev; [done|].
  apply negb_true_iff in Hd.
  unfold Path.dirname. rewrite !to_list_app. simpl.
  rewrite (dirname_l_join _ _ c r) by done.
  apply string_of_list_ascii_of_string.
Qed.

Lemma plain_join (d name : string) (c : ascii) (r : list ascii) :
  plain_directory d = true →
  rev (Str.to_list name) = c :: r → existsb Str.is_sep (c :: r) = false →
  plain_directory (Path.join d name) = true.
Proof.
  intros Hd Hrev Hsep.
  assert (existsb Str.is_sep (Str.to_list name) = false) as Hname
    by (by rewrite <- existsb_reverse, Hrev).
  rewrite join_plain by (by try apply no_sep_not_leading).
  unfold plain_directory. rewrite !to_list_app, !rev_app_distr, Hrev. simpl.
  simpl in Hsep. apply orb_false_elim in Hsep as [-> _]. reflexivity.
Qed.

(** Making a directory that is already there, in a directory that is
    there, changes nothing. *)
Lemma makedirs_fs_existing (h : host) (f : gmap string node) (p : string) (m : N) (t : Q) :
  f !! p = Some (Dir m t) →
  exists_in f (Path.dirname p) = true →
  makedirs_fs h f p = Ok f.
Proof.
  intros Hp Hparent.
  assert (mkdir_exist_ok h f p = Ok f) as Hmk by (unfold mkdir_exist_ok; by rewrite Hp).
  funelim (makedirs_fs h f p); try exact Hmk.
  all: rewrite Hparent, orb_true_r in *; discriminate.
Qed.

(** X19: a run that finds everything in place stays off the network.
    When the launcher's two directories exist, the version is given by
    an override or a pin file (and is not "latest") or by a cache entry
    that is readable and within its hour, and the artifact of that
    version is at its destination, [main] sends no request and writes no
    file: it sets the artifact's mode to 0o755 and launches it with the
    arguments after the program name, returning what that returns. *)
Theorem run_with_everything_in_place
    (argv : option (list string)) (h : host) (st : state)
    (d v : string) (n : node) (m1 m2 : N) (t1 t2 : Q) :
  plain_directory (home h) = true →
  exists_in (fs st) (home h) = true →
  fs st !! Path.join (home h) ".bazelisk" = Some (Dir m1 t1) →
  fs st !! Path.join (Path.join (home h) ".bazelisk") "bin" = Some (Dir m2 t2) →
  selector_outcome h (fs st) = Ok d →
  (d ≠ "latest" ∧ v = d ∨
   d = "latest" ∧
   ∃ m t c, fs st !! Path.join (Path.join (home h) ".bazelisk") "latest_bazel"
              = Some (File m t c) ∧
            owner_readable m = true ∧
            (Qabs (now h - t) < 3600)%Q ∧
            v = Str.strip (Str.universal_newlines c)) →
  supported h = true →
  fs st !! destination_on h v (Path.join (Path.join (home h) ".bazelisk") "bin") = Some n →
  main argv h st
  = (match spawn h (destination_on h v (Path.join (Path.join (home h) ".bazelisk") "bin"))
             (drop 1 (default (sys_argv h) argv)) with
     | inr code => Ok code
     | inl e => Raise e
     end,
     {| fs := <[destination_on h v (Path.join (Path.join (home h) ".bazelisk") "bin")
                 := set_mode 493 n]> (fs st);
        requests := requests st |}).
Proof.
  intros Hhome Hhome_in Hbdir Hbin Hsel Hres Hsup Hart.
  set (bdir := Path.join (home h) ".bazelisk") in *.
  assert (os_makedirs bdir h st = (Ok tt, st)) as Hmk1.
  { unfold os_makedirs. rewrite (makedirs_fs_existing h (fs st) bdir m1 t1 Hbdir).
    - by rewrite with_fs_same.
    - unfold bdir. by rewrite dirname_join. }
  assert (os_makedirs (Path.join bdir "bin") h st = (Ok tt, st)) as Hmk2.
  { unfold os_makedirs.
    rewrite (makedirs_fs_existing h (fs st) (Path.join bdir "bin") m2 t2 Hbin).
    - by rewrite with_fs_same.
    - rewrite dirname_join; [unfold exists_in; by rewrite Hbdir | | reflexivity].
      unfold bdir. by eapply plain_join. }
  assert (resolve_version_label_to_number bdir d h st = (Ok v, st)) as Hresolve.
  { destruct Hres as [[Hd ->] | (-> & m & t & c & Hcache & Hm & Hfresh & ->)].
    - unfold resolve_version_label_to_number. by rewrite decide_False.
    - rewrite (resolve_hit bdir h st (File m t c) Hcache Hfresh). simpl. by rewrite Hm. }
  unfold main. unfold bind at 1. rewrite main_argv.
  unfold bind at 1. unfold ask at 1. fold bdir.
  unfold bind at 1. rewrite Hmk1.
  unfold bind at 1. rewrite decide_which_bazel_version_to_use_outcome, Hsel.
  unfold bind at 1. rewrite Hresolve.
  unfold bind at 1. rewrite Hmk2.
  unfold bind at 1. rewrite (download_present v (Path.join bdir "bin") h st n Hsup Hart).
  unfold popen_wait, with_fs. by destruct (spawn h _ _).
Qed.

Lemma run_with_everything_in_place_witness :
  main None (host_at 11800)
    {| fs := <[artifact_path := File 420 10000%Q "0123456789"]> (fs cached_state);
       requests := [] |}
  = (Ok 0%Z,
     {| fs := <[artifact_path := File 493 10000%Q "0123456789"]>
                (<[artifact_path := File 420 10000%Q "0123456789"]> (fs cached_state));
        requests := [] |}).
Proof.
  rewrite (run_with_everything_in_place None (host_at 11800)
             {| fs := <[artifact_path := File 420 10000%Q "0123456789"]> (fs cached_state);
                requests := [] |}
             "latest" "9.1.0" (File 420 10000%Q "0123456789") 493 493 0%Q 0%Q);
    [vm_compute; reflexivity | reflexivity | reflexivity | reflexivity | reflexivity
    | reflexivity | | reflexivity | reflexivity].
  right. split; [reflexivity|].
  exists 420%N, 10000%Q, "9.1.0". repeat split; reflexivity.
Defined.

(** X20: what is found at the destination is never looked into.  A node
    that is already there, be it a truncated or empty file or even a
    directory, is kept with its data and time stamp; only its mode
    becomes 0o755, no other path changes, and nothing is requested. *)
Theorem existing_artifact_is_kept
    (h : host) (st : state) (version directory : string) (n : node) :
  supported h = true →
  fs st !! destination_on h version directory = Some n →
  ∃ st', download_bazel_into_directory version directory h st
           = (Ok (destination_on h version directory), st') ∧
         fs st' !! destination_on h version directory = Some (set_mode 493 n) ∧
         (∀ p, p ≠ destination_on h version directory → fs st' !! p = fs st !! p) ∧
         requests st' = requests st.
Proof.
  intros Hsup Hn. eexists. split; [by apply download_present|]. simpl.
  split; [by rewrite lookup_insert_eq|]. split; [|reflexivity].
  intros p Hp. by rewrite lookup_insert_ne.
Qed.

Lemma existing_artifact_is_kept_witness :
  ∃ st', download_bazel_into_directory "9.1.0" bin_dir plain_host
           (fresh_state (<[artifact_path := File 420 5%Q EmptyString]> launcher_fs))
         = (Ok artifact_path, st') ∧
         fs st' !! artifact_path = Some (File 493 5%Q EmptyString) ∧
         requests st' = [].
Proof.
  destruct (existing_artifact_is_kept plain_host
              (fresh_state (<[artifact_path := File 420 5%Q EmptyString]> launcher_fs))
              "9.1.0" bin_dir (File 420 5%Q EmptyString))
    as (st' & Hrun & Hnode & _ & Hreq); [reflexivity | reflexivity |].
  exists st'. split; [exact Hrun|]. split; [exact Hnode | exact Hreq].
Defined.

Lemma makedirs_fs_over_file
    (h : host) (f : gmap string node) (p data : string) (m : N) (t : Q) :
  f !! p = Some (File m t data) →
  exists_in f (Path.dirname p) = true →
  makedirs_fs h f p = Raise FileExistsError.
Proof.
  intros Hp Hparent.
  assert (mkdir_exist_ok h f p = Raise FileExistsError) as Hmk
    by (unfold mkdir_exist_ok; by rewrite Hp).
  funelim (makedirs_fs h f p); try exact Hmk.
  all: rewrite Hparent, orb_true_r in *; discriminate.
Qed.

(** X21: a file named [.bazelisk] in the home directory stops the run at
    its first step: [os.makedirs(..., exist_ok=True)] accepts an
    existing directory only, so [main] ends with [FileExistsError]
    before it selects a version, and nothing is sent or changed. *)
Theorem main_stops_at_file_in_place_of_directory
    (argv : option (list string)) (h : host) (st : state) (m : N) (t : Q) (data : string) :
  plain_directory (home h) = true →
  exists_in (fs st) (home h) = true →
  fs st !! Path.join (home h) ".bazelisk" = Some (File m t data) →
  main argv h st = (Raise FileExistsError, st).
Proof.
  intros Hhome Hin Hfile. unfold main. unfold bind at 1. rewrite main_argv.
  unfold bind at 1. unfold ask at 1.
  unfold bind at 1. unfold os_makedirs.
  rewrite (makedirs_fs_over_file h (fs st) _ data m t Hfile); [reflexivity|].
  by rewrite dirname_join.
Qed.

Lemma main_stops_at_file_in_place_of_directory_witness :
  main None plain_host
    (fresh_state (<["/home/u/.bazelisk" := File 420 0%Q EmptyString]> bare_fs))
  = (Raise FileExistsError,
     fresh_state (<["/home/u/.bazelisk" := File 420 0%Q EmptyString]> bare_fs)).
Proof.
  apply (main_stops_at_file_in_place_of_directory None plain_host
           (fresh_state (<["/home/u/.bazelisk" := File 420 0%Q EmptyString]> bare_fs))
           420 0%Q EmptyString); reflexivity.
Defined.
